(** * articulated_franka.robot: the ImpedanceRegulation client

    A shallow embedding of [ImpedanceRegulation] from
    [packages/articulated/src/articulated_franka/robot.py].

    The class is a thin wrapper around three ROS endpoints.  Every method is
    a short sequence of calls on those endpoints, interleaved with clock
    readings and sleeps.  The embedding keeps that shape: a method is a
    computation in a state-and-exception monad over a [World], which holds
    what the endpoints and the clock will answer and the trace of the calls
    made so far.  The two polling loops take a fuel argument. *)

From Stdlib Require Import ZArith List String Bool Arith Lia PrimFloat.
Import ListNotations.

Set Warnings "-inexact-float".
Set Implicit Arguments.

Local Open Scope string_scope.
Local Open Scope list_scope.
Local Open Scope Z_scope.

(** ** Python values *)

(** A Python number: [int] or [float] (binary64). *)
Inductive pynum : Type :=
| PyInt (z : Z)
| PyFloat (f : float).

(** The exceptions the methods can end with. *)
Inductive exn : Type :=
| AssertionError (msg : string)
| TypeError (msg : string)
| RuntimeError (msg : string)
| ValueError (msg : string)
| ServiceException (msg : string).

(** What [np.array] yields on the two kinds of argument [_fill_in_config]
    hands it: a list of Python ints, or [None] (a 0-d object array). *)
Inductive ndarray : Type :=
| nd_int_1d (l : list Z)
| nd_object_None.

Definition np_array (x : option (list Z)) : ndarray :=
  match x with
  | Some l => nd_int_1d l
  | None => nd_object_None
  end.

(** Modelled from the spec: the status codes of [actionlib_msgs/GoalStatus],
    an enumeration with at least PENDING, ACTIVE, SUCCEEDED, PREEMPTED,
    ABORTED and LOST.  The message definition is not part of the package; the
    codes are those of [GoalStatus.msg], and [get_state] reports one of them
    as an integer. *)
Module GoalStatus.
Definition PENDING : Z := 0.
Definition ACTIVE : Z := 1.
Definition PREEMPTED : Z := 2.
Definition SUCCEEDED : Z := 3.
Definition ABORTED : Z := 4.
Definition REJECTED : Z := 5.
Definition PREEMPTING : Z := 6.
Definition RECALLING : Z := 7.
Definition RECALLED : Z := 8.
Definition LOST : Z := 9.
End GoalStatus.

(** ** Messages *)

(** [articulated/RegulateEeConfig], the payload of both the service request
    and the action goal: the five fields [_fill_in_config] assigns. *)
Record Config : Type := mkConfig {
  o_T_ee_desired : list float;
  stiffness : ndarray;
  damping : ndarray;
  ee_control_force_bound : pynum;
  ee_control_torque_bound : pynum
}.

(** Field assignments, [config.field = v]. *)
Definition set_o_T_ee_desired (config : Config) (v : list float) : Config :=
  mkConfig v (stiffness config) (damping config)
           (ee_control_force_bound config) (ee_control_torque_bound config).

Definition set_stiffness (config : Config) (v : ndarray) : Config :=
  mkConfig (o_T_ee_desired config) v (damping config)
           (ee_control_force_bound config) (ee_control_torque_bound config).

Definition set_damping (config : Config) (v : ndarray) : Config :=
  mkConfig (o_T_ee_desired config) (stiffness config) v
           (ee_control_force_bound config) (ee_control_torque_bound config).

Definition set_force_bound (config : Config) (v : pynum) : Config :=
  mkConfig (o_T_ee_desired config) (stiffness config) (damping config)
           v (ee_control_torque_bound config).

Definition set_torque_bound (config : Config) (v : pynum) : Config :=
  mkConfig (o_T_ee_desired config) (stiffness config) (damping config)
           (ee_control_force_bound config) v.

(** A freshly constructed message, before any field is assigned. *)
Definition Config_new : Config :=
  mkConfig [] (nd_int_1d []) (nd_int_1d []) (PyFloat 0%float) (PyFloat 0%float).

(** The action result; [status] is the text [%s] renders. *)
Record Result : Type := mkResult { status : string }.

(** The answer of a service call: a response, or a transport failure. *)
Inductive reply (A : Type) : Type :=
| Reply (a : A)
| Fault (msg : string).
Arguments Fault {A} msg.

(** ** The world: endpoints, clock and trace *)

Inductive event : Type :=
| EvCallGetEe                      (* self._c_get_T_ee.call() *)
| EvCallConfig (cfg : Config)      (* self._c_config.call(req) *)
| EvWaitForServer (seconds : Z)    (* wait_for_server(rospy.Duration(s)) *)
| EvSendGoal (cfg : Config)        (* send_goal(goal) *)
| EvGetState                       (* get_state() *)
| EvCancelGoal                     (* cancel_goal() *)
| EvGetResult                      (* get_result() *)
| EvTime                           (* time.time() *)
| EvRospySleep (d : float)         (* rospy.sleep(d) *)
| EvTimeSleep (d : float)          (* time.sleep(d) *)
| EvLogInfo (msg : string).        (* logger.info(msg) *)

(** [goal_states k] is what the k-th coming [get_state] reports, [clock k]
    what the k-th coming [time.time()] reads.  A deterministic client sees
    any behaviour of its environment as one such pair of feeds. *)
Record World : Type := mkWorld {
  server_reachable : bool;
  goal_states : nat -> Z;
  clock : nat -> float;
  goal_result : Result;
  ee_reply : reply (list float);
  config_reply : Config -> reply unit;
  trace : list event
}.

Definition emit (e : event) (w : World) : World :=
  mkWorld (server_reachable w) (goal_states w) (clock w) (goal_result w)
          (ee_reply w) (config_reply w) (trace w ++ [e]).

Definition next_state (w : World) : World :=
  mkWorld (server_reachable w) (fun k => goal_states w (S k)) (clock w)
          (goal_result w) (ee_reply w) (config_reply w) (trace w).

Definition next_tick (w : World) : World :=
  mkWorld (server_reachable w) (goal_states w) (fun k => clock w (S k))
          (goal_result w) (ee_reply w) (config_reply w) (trace w).

(** ** The monad *)

Inductive outcome (A : Type) : Type :=
| Returned (a : A)
| Raised (e : exn)
| OutOfFuel.
Arguments Raised {A} e.
Arguments OutOfFuel {A}.

Definition M (A : Type) : Type := World -> outcome A * World.

Definition ret {A : Type} (a : A) : M A := fun w => (Returned a, w).

Definition raise {A : Type} (e : exn) : M A := fun w => (Raised e, w).

Definition out_of_fuel {A : Type} : M A := fun w => (OutOfFuel, w).

Definition bind {A B : Type} (m : M A) (k : A -> M B) : M B :=
  fun w =>
    match m w with
    | (Returned a, w') => k a w'
    | (Raised e, w') => (Raised e, w')
    | (OutOfFuel, w') => (OutOfFuel, w')
    end.

Declare Scope py_scope.
Delimit Scope py_scope with py.
Notation "x <- m ;; k" := (bind m (fun x => k))
  (at level 61, m at next level, right associativity) : py_scope.
Notation "m ;; k" := (bind m (fun _ => k))
  (at level 61, right associativity) : py_scope.
Local Open Scope py_scope.

(** [assert cond, msg] *)
Definition py_assert (cond : bool) (msg : string) : M unit :=
  if cond then ret tt else raise (AssertionError msg).

(** [len(x)] on an optional sequence: [None] has no length. *)
Definition py_len {A : Type} (x : option (list A)) : M Z :=
  match x with
  | Some l => ret (Z.of_nat (List.length l))
  | None => raise (TypeError "object of type 'NoneType' has no len()")
  end.

(** ** The endpoints *)

Definition wait_for_server (seconds : Z) : M bool :=
  fun w => (Returned (server_reachable w), emit (EvWaitForServer seconds) w).

Definition send_goal (cfg : Config) : M unit :=
  fun w => (Returned tt, emit (EvSendGoal cfg) w).

Definition get_state : M Z :=
  fun w => (Returned (goal_states w O), next_state (emit EvGetState w)).

Definition cancel_goal : M unit :=
  fun w => (Returned tt, emit EvCancelGoal w).

Definition get_result : M Result :=
  fun w => (Returned (goal_result w), emit EvGetResult w).

Definition time_time : M float :=
  fun w => (Returned (clock w O), next_tick (emit EvTime w)).

Definition rospy_sleep (d : float) : M unit :=
  fun w => (Returned tt, emit (EvRospySleep d) w).

Definition time_sleep (d : float) : M unit :=
  fun w => (Returned tt, emit (EvTimeSleep d) w).

Definition logger_info (msg : string) : M unit :=
  fun w => (Returned tt, emit (EvLogInfo msg) w).

Definition call_get_ee : M (list float) :=
  fun w =>
    match ee_reply w with
    | Reply v => (Returned v, emit EvCallGetEe w)
    | Fault msg => (Raised (ServiceException msg), emit EvCallGetEe w)
    end.

Definition call_config (cfg : Config) : M unit :=
  fun w =>
    match config_reply w cfg with
    | Reply _ => (Returned tt, emit (EvCallConfig cfg) w)
    | Fault msg => (Raised (ServiceException msg), emit (EvCallConfig cfg) w)
    end.

(** ** numpy: flatten and reshape *)

(** [a.flatten().tolist()] of a two-dimensional array, row after row. *)
Definition flatten_tolist {A : Type} (a : list (list A)) : list A := List.concat a.

(** [rows] consecutive slices of [cols] elements each. *)
Fixpoint rows_of {A : Type} (rows cols : nat) (l : list A) : list (list A) :=
  match rows with
  | O => []
  | S r => firstn cols l :: rows_of r cols (skipn cols l)
  end.

(** [np.array(l).reshape(rows, cols)]: C order; the sizes have to agree. *)
Definition reshape {A : Type} (rows cols : nat) (l : list A) : M (list (list A)) :=
  if Nat.eqb (List.length l) (rows * cols)
  then ret (rows_of rows cols l)
  else raise (ValueError "cannot reshape array into the requested shape").

(** Entry [m[i][j]], with [d] standing for an index out of range. *)
Definition entry {A : Type} (d : A) (m : list (list A)) (i j : nat) : A :=
  nth j (nth i m []) d.

(** ** The methods of ImpedanceRegulation *)

Import GoalStatus.

(** robot.py, lines 30-37. *)
Definition is_idle : M bool :=
  state <- get_state ;;
  ret ((state =? SUCCEEDED)
       || (state =? PREEMPTED)
       || (state =? ABORTED)
       || (state =? LOST)).

(** robot.py, lines 39-42. *)
Definition get_ee_transform : M (list (list float)) :=
  res <- call_get_ee ;;
  reshape 4 4 res.

(** robot.py, lines 97-116.  The rebinding of [stiffness] and [damping] to
    the fixed gain lists is a new binding here; the second assertion reads
    the length of [stiffness] as rebound, the way line 110 does. *)
Definition _fill_in_config
    (config : Config)
    (target_transform : list (list float))
    (stiffness damping : option (list pynum))
    (force_bound torque_bound : pynum) : M Config :=
  stiffness <-
    match stiffness with
    | Some s =>
        n <- py_len (Some s) ;;
        py_assert (n =? 6) "Stiffness dimension does not match" ;;
        ret (Some [150; 150; 150; 10; 10; 10])
    | None => ret None
    end ;;
  damping <-
    match damping with
    | Some _ =>
        n <- py_len stiffness ;;
        py_assert (n =? 6) "Damping dimension does not match" ;;
        ret (Some [30; 30; 30; 8; 8; 8])
    | None => ret None
    end ;;
  let config := set_o_T_ee_desired config (flatten_tolist target_transform) in
  let config := set_stiffness config (np_array stiffness) in
  let config := set_damping config (np_array damping) in
  let config := set_force_bound config force_bound in
  let config := set_torque_bound config torque_bound in
  ret config.

(** The keyword defaults of [set_ee] and [regulate_ee]. *)
Definition default_force_bound : pynum := PyInt 50.
Definition default_torque_bound : pynum := PyInt 4.

(** robot.py, lines 44-62. *)
Definition set_ee
    (target_transform : list (list float))
    (stiffness damping : option (list pynum))
    (force_bound torque_bound : pynum) : M unit :=
  let req_config :=
    set_o_T_ee_desired Config_new (flatten_tolist target_transform) in
  cfg <- _fill_in_config req_config target_transform stiffness damping
                         force_bound torque_bound ;;
  call_config cfg.

(** [time.time() - t0 > limit] on binary64 floats. *)
Definition elapsed_gt (t t0 limit : float) : bool :=
  PrimFloat.ltb limit (PrimFloat.sub t t0).

(** robot.py, lines 87-92: the loop on [state == GoalStatus.PENDING]. *)
Fixpoint wait_while_pending (fuel : nat) (state : Z) (t0 : float) : M Z :=
  match fuel with
  | O => out_of_fuel
  | S fuel' =>
      if state =? PENDING then
        state <- get_state ;;
        rospy_sleep 0.001%float ;;
        t <- time_time ;;
        if elapsed_gt t t0 10%float then
          cancel_goal ;;
          raise (RuntimeError "Timeout!")
        else wait_while_pending fuel' state t0
      else ret state
  end.

(** robot.py, lines 64-95. *)
Definition regulate_ee
    (fuel : nat)
    (target_transform : list (list float))
    (stiffness damping : option (list pynum))
    (force_bound torque_bound : pynum) : M unit :=
  reachable <- wait_for_server 3 ;;
  if negb reachable then
    raise (RuntimeError "Action server connection time out!")
  else
    cfg <- _fill_in_config Config_new target_transform stiffness damping
                           force_bound torque_bound ;;
    send_goal cfg ;;
    state <- get_state ;;
    t0 <- time_time ;;
    state <- wait_while_pending fuel state t0 ;;
    if state =? ABORTED then
      result <- get_result ;;
      raise (RuntimeError (String.append "Goal aborted! " (status result)))
    else ret tt.

(** robot.py, lines 124-127: the loop on [not self.is_idle()]. *)
Fixpoint wait_until_idle (fuel : nat) (t0 : float) : M unit :=
  match fuel with
  | O => out_of_fuel
  | S fuel' =>
      idle <- is_idle ;;
      if negb idle then
        time_sleep 0.001%float ;;
        t <- time_time ;;
        if elapsed_gt t t0 3%float then raise (RuntimeError "Stop timeout!")
        else wait_until_idle fuel' t0
      else ret tt
  end.

(** robot.py, lines 118-127. *)
Definition stop (fuel : nat) : M unit :=
  idle <- is_idle ;;
  if idle then
    logger_info "Robot is idle. No need to stop"
  else
    cancel_goal ;;
    t0 <- time_time ;;
    wait_until_idle fuel t0.

(** ** Reading a trace *)

(** The configs handed to a remote endpoint, as a service request or as a
    goal, in the order they were sent. *)
Fixpoint payloads (tr : list event) : list Config :=
  match tr with
  | [] => []
  | EvCallConfig cfg :: tr' => cfg :: payloads tr'
  | EvSendGoal cfg :: tr' => cfg :: payloads tr'
  | _ :: tr' => payloads tr'
  end.

(** How many times the goal was cancelled. *)
Fixpoint cancels (tr : list event) : nat :=
  match tr with
  | [] => O
  | EvCancelGoal :: tr' => S (cancels tr')
  | _ :: tr' => cancels tr'
  end.

(** The events of one pass through the loop of [regulate_ee]. *)
Definition pending_pass : list event :=
  [EvGetState; EvRospySleep 0.001%float; EvTime].

(** The events of one pass through the loop of [stop] that finds the robot
    busy: the [is_idle] of the loop test, then the body. *)
Definition busy_pass : list event :=
  [EvGetState; EvTimeSleep 0.001%float; EvTime].

Fixpoint passes (pass : list event) (n : nat) : list event :=
  match n with
  | O => []
  | S n' => pass ++ passes pass n'
  end.

(** The statuses on which [is_idle] answers [True]. *)
Definition terminal_statuses : list Z := [SUCCEEDED; PREEMPTED; ABORTED; LOST].

(** The two entry points that build and send a config. *)
Inductive entry_point : Type :=
| SetEe
| RegulateEe (fuel : nat).

Definition invoke (c : entry_point) :
    list (list float) -> option (list pynum) -> option (list pynum) ->
    pynum -> pynum -> M unit :=
  match c with
  | SetEe => set_ee
  | RegulateEe fuel => regulate_ee fuel
  end.

(** Whether the entry point gets as far as building its config: [set_ee]
    always does, [regulate_ee] once the action server has answered. *)
Definition reaches_config (c : entry_point) (w : World) : bool :=
  match c with
  | SetEe => true
  | RegulateEe _ => server_reachable w
  end.

(** The world in which the entry point builds its config. *)
Definition world_at_config (c : entry_point) (w : World) : World :=
  match c with
  | SetEe => w
  | RegulateEe _ => emit (EvWaitForServer 3) w
  end.

(** The world after one pass through the loop of [regulate_ee]: a status
    read, a sleep and a clock reading. *)
Definition after_pending_pass (w : World) : World :=
  next_tick (emit EvTime (emit (EvRospySleep 0.001%float)
                            (next_state (emit EvGetState w)))).

(** The world after one pass through the loop of [stop] that found the robot
    busy. *)
Definition after_busy_pass (w : World) : World :=
  next_tick (emit EvTime (emit (EvTimeSleep 0.001%float)
                            (next_state (emit EvGetState w)))).

(** A world for examples: the feeds are read off lists, [LOST] and [0.0]
    standing in once a list is used up; every service call is answered. *)
Definition example_world
    (reachable : bool) (states : list Z) (readings : list float)
    (pose : list float) : World :=
  mkWorld reachable
          (fun k => nth k states LOST)
          (fun k => nth k readings 0%float)
          (mkResult "collision")
          (Reply pose)
          (fun _ => Reply tt)
          [].

Definition sixteen : list float :=
  [0; 1; 2; 3; 4; 5; 6; 7; 8; 9; 10; 11; 12; 13; 14; 15]%float.

(** ** The worlds the loops start from *)

(** The statuses the loop of [regulate_ee] compares with PENDING, in order:
    the one it is entered with, then the ones it reads. *)
Definition observed (state : Z) (w : World) (k : nat) : Z :=
  match k with
  | O => state
  | S k' => goal_states w k'
  end.

(** The world in which the loop of [regulate_ee] starts: the server has
    answered, the goal is out, the first status and [t0] have been read. *)
Definition world_at_pending_loop (cfg : Config) (w : World) : World :=
  next_tick (emit EvTime
    (next_state (emit EvGetState
      (emit (EvSendGoal cfg) (emit (EvWaitForServer 3) w))))).

(** The test of [is_idle] on a status. *)
Definition idle_status (state : Z) : bool :=
  (state =? SUCCEEDED) || (state =? PREEMPTED)
  || (state =? ABORTED) || (state =? LOST).

(** The world in which the loop of [stop] starts: the robot was found busy,
    the goal has been cancelled and [t0] read. *)
Definition world_at_busy_loop (w : World) : World :=
  next_tick (emit EvTime (emit EvCancelGoal (next_state (emit EvGetState w)))).

(** ** The validation claims, as the specification words them *)

(** A sequence was supplied and its length is not 6. *)
Definition wrong_length (x : option (list pynum)) : Prop :=
  exists l, x = Some l /\ List.length l <> 6%nat.

(** The call ends with a validation error and has sent nothing. *)
Definition fails_validation
    (c : entry_point) (target_transform : list (list float))
    (s d : option (list pynum)) (force_bound torque_bound : pynum)
    (w : World) : Prop :=
  exists msg,
    fst (invoke c target_transform s d force_bound torque_bound w)
    = Raised (AssertionError msg)
    /\ payloads (trace (snd (invoke c target_transform s d
                                    force_bound torque_bound w)))
       = payloads (trace w).

(** The call ends with a type error and has sent nothing. *)
Definition fails_with_type_error
    (c : entry_point) (target_transform : list (list float))
    (s d : option (list pynum)) (force_bound torque_bound : pynum)
    (w : World) : Prop :=
  exists msg,
    fst (invoke c target_transform s d force_bound torque_bound w)
    = Raised (TypeError msg)
    /\ payloads (trace (snd (invoke c target_transform s d
                                    force_bound torque_bound w)))
       = payloads (trace w).

(** Example inputs. *)
Definition identity_transform : list (list float) :=
  [[1; 0; 0; 0]; [0; 1; 0; 0]; [0; 0; 1; 0]; [0; 0; 0; 1]]%float.

Definition six_gains : list pynum :=
  [PyInt 1; PyInt 2; PyInt 3; PyFloat 0.5%float; PyInt 5; PyInt 6].

Definition three_gains : list pynum := [PyInt 1; PyInt 2; PyInt 3].

(** A world in which the goal is accepted at the first poll, read 10.5
    seconds after [t0]. *)
Definition late_world : World :=
  example_world true [PENDING; ACTIVE] [0; 10.5]%float sixteen.

(** The config [_fill_in_config] builds for the identity transform with
    both gains unset and the default bounds. *)
Definition unset_config : Config :=
  mkConfig (flatten_tolist identity_transform) nd_object_None nd_object_None
           default_force_bound default_torque_bound.

(** A world in which the goal is aborted at the second poll. *)
Definition aborting_world : World :=
  example_world true [PENDING; PENDING; ABORTED] [0; 1; 2]%float sixteen.

(** A world in which the goal is still PENDING 11 seconds after [t0]. *)
Definition stuck_world : World :=
  example_world true [PENDING; PENDING; PENDING] [0; 4; 11]%float sixteen.

(** A world in which the robot is already idle. *)
Definition idle_world : World :=
  example_world true [SUCCEEDED] [] sixteen.

(** A world in which the robot stays busy for more than 3 seconds after the
    cancellation. *)
Definition busy_world : World :=
  example_world true [ACTIVE; ACTIVE; ACTIVE] [0; 1; 4]%float sixteen.

(** ** The constructor *)

(** What [__init__] stores in the object: the name each of the three
    clients is bound to, and [_status]. *)
Record Client : Type := mkClient {
  _c_get_T_ee : string;
  _c_regulate_ee : string;
  _c_config : string;
  _status : string
}.

(** robot.py, lines 18-28.  The f-string ["/{prefix}name"] is the
    concatenation of ["/"], the prefix and the name. *)
Definition __init__ (prefix : string) : Client :=
  mkClient (String.append "/" (String.append prefix "get_ee_transform"))
           (String.append "/" (String.append prefix "regulate_ee_transform"))
           (String.append "/" (String.append prefix "set_regulate_ee_config"))
           "idle".

(** The keyword default of [__init__]. *)
Definition default_prefix : string := "franka_".

(** The three names a client talks to. *)
Definition endpoint_names (c : Client) : list string :=
  [_c_get_T_ee c; _c_regulate_ee c; _c_config c].

(** * Properties *)

(** ** is_idle *)

Lemma is_idle_run (w : World) :
  is_idle w =
    (Returned ((goal_states w O =? SUCCEEDED)
               || (goal_states w O =? PREEMPTED)
               || (goal_states w O =? ABORTED)
               || (goal_states w O =? LOST)),
     next_state (emit EvGetState w)).
Proof. reflexivity. Qed.

Lemma terminal_statuses_spec (s : Z) :
  ((s =? SUCCEEDED) || (s =? PREEMPTED) || (s =? ABORTED) || (s =? LOST)) = true
  <-> In s terminal_statuses.
Proof.
  unfold terminal_statuses; simpl.
  rewrite !orb_true_iff, !Z.eqb_eq.
  intuition congruence.
Qed.

(** C7: [is_idle] asks the action client for the goal status once and
    returns a boolean, which is [True] exactly when the reported status is
    SUCCEEDED, PREEMPTED, ABORTED or LOST; for PENDING, for ACTIVE and for
    every other integer the client may report, it is [False]. *)
Theorem is_idle_iff_terminal (w : World) :
  exists b : bool,
    is_idle w = (Returned b, next_state (emit EvGetState w))
    /\ (b = true <-> In (goal_states w O) terminal_statuses)
    /\ (b = false <-> ~ In (goal_states w O) terminal_statuses)
    /\ (goal_states w O = PENDING \/ goal_states w O = ACTIVE -> b = false).
Proof.
  eexists; split; [apply is_idle_run|].
  pose proof (terminal_statuses_spec (goal_states w O)) as Hspec.
  split; [exact Hspec|]. split.
  - rewrite <- Hspec.
    destruct (_ || _ || _ || _); split; intros; congruence.
  - intros [-> | ->]; reflexivity.
Qed.

(** ** get_ee_transform *)

Section Reshape.
Variable A : Type.

Lemma rows_of_length (rows cols : nat) (l : list A) :
  List.length (rows_of rows cols l) = rows.
Proof.
  revert l; induction rows as [|r IH]; intros l; simpl; [reflexivity|].
  now rewrite IH.
Qed.

Lemma rows_of_nth (rows cols i : nat) (l : list A) :
  (i < rows)%nat ->
  nth i (rows_of rows cols l) [] = firstn cols (skipn (i * cols) l).
Proof.
  revert i l; induction rows as [|r IH]; intros i l Hi; [lia|].
  destruct i as [|i]; simpl; [reflexivity|].
  rewrite IH by lia.
  now rewrite skipn_skipn, Nat.add_comm.
Qed.

Lemma nth_firstn_lt (d : A) (n j : nat) (l : list A) :
  (j < n)%nat -> nth j (firstn n l) d = nth j l d.
Proof.
  revert j l; induction n as [|n IH]; intros j l Hj; [lia|].
  destruct l as [|x l]; [now destruct j|].
  destruct j as [|j]; simpl; [reflexivity|].
  apply IH; lia.
Qed.

Lemma nth_skipn_add (d : A) (k j : nat) (l : list A) :
  nth j (skipn k l) d = nth (k + j) l d.
Proof.
  revert l; induction k as [|k IH]; intros l; [reflexivity|].
  destruct l as [|x l]; simpl; [now destruct j|].
  apply IH.
Qed.

Lemma rows_of_row_length (rows cols : nat) (l : list A) (row : list A) :
  List.length l = (rows * cols)%nat ->
  In row (rows_of rows cols l) -> List.length row = cols.
Proof.
  revert l; induction rows as [|r IH]; intros l Hlen Hin; [destruct Hin|].
  simpl in Hin, Hlen. destruct Hin as [<-|Hin].
  - rewrite length_firstn; lia.
  - apply (IH (skipn cols l)); [|exact Hin].
    rewrite length_skipn; lia.
Qed.

Lemma rows_of_entry (d : A) (rows cols i j : nat) (l : list A) :
  (i < rows)%nat -> (j < cols)%nat ->
  entry d (rows_of rows cols l) i j = nth (i * cols + j) l d.
Proof.
  intros Hi Hj. unfold entry.
  rewrite rows_of_nth by assumption.
  rewrite nth_firstn_lt by assumption.
  apply nth_skipn_add.
Qed.
End Reshape.

(** C6: when the service answers with sixteen floats [v], [get_ee_transform]
    returns a matrix of four rows of four entries each, and the entry at row
    [i], column [j] is [v[4*i+j]]. *)
Theorem get_ee_transform_row_major
    (w : World) (v : list float) (d : float) (i j : nat) :
  ee_reply w = Reply v ->
  List.length v = 16%nat ->
  (i < 4)%nat -> (j < 4)%nat ->
  exists m : list (list float),
    get_ee_transform w = (Returned m, emit EvCallGetEe w)
    /\ List.length m = 4%nat
    /\ (forall row, In row m -> List.length row = 4%nat)
    /\ entry d m i j = nth (4 * i + j) v d.
Proof.
  intros Hreply Hlen Hi Hj.
  exists (rows_of 4 4 v).
  split; [|split; [|split]].
  - unfold get_ee_transform, bind, call_get_ee, reshape.
    rewrite Hreply, Hlen. reflexivity.
  - apply rows_of_length.
  - intros row Hin. apply (rows_of_row_length 4 4 v); [exact Hlen|exact Hin].
  - rewrite rows_of_entry by assumption.
    f_equal. lia.
Qed.

Lemma get_ee_transform_row_major_witness :
  exists m : list (list float),
    get_ee_transform (example_world true [] [] sixteen)
    = (Returned m, emit EvCallGetEe (example_world true [] [] sixteen))
    /\ List.length m = 4%nat
    /\ (forall row, In row m -> List.length row = 4%nat)
    /\ entry 0%float m 2 3 = nth (4 * 2 + 3) sixteen 0%float.
Proof.
  apply (@get_ee_transform_row_major
           (example_world true [] [] sixteen) sixteen 0%float 2%nat 3%nat);
    [reflexivity | reflexivity | lia | lia].
Defined.

(** ** Traces *)

Lemma payloads_app (tr1 tr2 : list event) :
  payloads (tr1 ++ tr2) = payloads tr1 ++ payloads tr2.
Proof.
  induction tr1 as [|e tr1 IH]; [reflexivity|].
  destruct e; simpl; rewrite IH; reflexivity.
Qed.

Lemma cancels_app (tr1 tr2 : list event) :
  cancels (tr1 ++ tr2) = (cancels tr1 + cancels tr2)%nat.
Proof.
  induction tr1 as [|e tr1 IH]; [reflexivity|].
  destruct e; simpl; rewrite IH; reflexivity.
Qed.

Lemma payloads_silent (tr : list event) (e : event) :
  payloads [e] = [] -> payloads (tr ++ [e]) = payloads tr.
Proof. intros H. now rewrite payloads_app, H, app_nil_r. Qed.

(** ** _fill_in_config *)

Section FillInConfig.
Variables (config : Config) (target_transform : list (list float)).
Variables (force_bound torque_bound : pynum).
Variable w : World.

Lemma fill_in_config_bad_stiffness (l : list pynum) (d : option (list pynum)) :
  List.length l <> 6%nat ->
  _fill_in_config config target_transform (Some l) d force_bound torque_bound w
  = (Raised (AssertionError "Stiffness dimension does not match"), w).
Proof.
  intros Hlen. unfold _fill_in_config, bind, py_len, py_assert, ret, raise.
  destruct (Z.eqb_spec (Z.of_nat (List.length l)) 6) as [Heq|_];
    [lia|reflexivity].
Qed.

Lemma fill_in_config_accepts (l : list pynum) (d : option (list pynum)) :
  List.length l = 6%nat ->
  _fill_in_config config target_transform (Some l) d force_bound torque_bound w
  = (Returned
       (mkConfig (flatten_tolist target_transform)
                 (nd_int_1d [150; 150; 150; 10; 10; 10])
                 (match d with
                  | Some _ => nd_int_1d [30; 30; 30; 8; 8; 8]
                  | None => nd_object_None
                  end)
                 force_bound torque_bound),
     w).
Proof.
  intros Hlen. unfold _fill_in_config, bind, py_len, py_assert, ret, raise.
  rewrite Hlen. destruct d; reflexivity.
Qed.

Lemma fill_in_config_both_unset :
  _fill_in_config config target_transform None None force_bound torque_bound w
  = (Returned
       (mkConfig (flatten_tolist target_transform)
                 nd_object_None nd_object_None force_bound torque_bound),
     w).
Proof. reflexivity. Qed.

Lemma fill_in_config_len_of_None (d : list pynum) :
  _fill_in_config config target_transform None (Some d) force_bound torque_bound w
  = (Raised (TypeError "object of type 'NoneType' has no len()"), w).
Proof. reflexivity. Qed.
End FillInConfig.

(** ** The loop of regulate_ee never sends *)

Lemma wait_while_pending_unfold (fuel : nat) (state : Z) (t0 : float) (w : World) :
  wait_while_pending (S fuel) state t0 w =
    if state =? PENDING then
      if elapsed_gt (clock w O) t0 10%float
      then (Raised (RuntimeError "Timeout!"), emit EvCancelGoal (after_pending_pass w))
      else wait_while_pending fuel (goal_states w O) t0 (after_pending_pass w)
    else (Returned state, w).
Proof.
  simpl. destruct (state =? PENDING); [|reflexivity].
  unfold bind, get_state, rospy_sleep, time_time, cancel_goal, raise; simpl.
  destruct (elapsed_gt (clock w O) t0 10%float); reflexivity.
Qed.

Lemma after_pending_pass_trace (w : World) :
  trace (after_pending_pass w) = trace w ++ pending_pass.
Proof. simpl. now rewrite <- !app_assoc. Qed.

Lemma wait_while_pending_payloads (fuel : nat) (state : Z) (t0 : float) (w : World) :
  payloads (trace (snd (wait_while_pending fuel state t0 w))) = payloads (trace w).
Proof.
  revert state w; induction fuel as [|fuel IH]; intros state w; [reflexivity|].
  rewrite wait_while_pending_unfold.
  destruct (state =? PENDING); [|reflexivity].
  destruct (elapsed_gt (clock w O) t0 10%float).
  - cbn [snd emit trace]. rewrite payloads_silent by reflexivity.
    rewrite after_pending_pass_trace, payloads_app. simpl. apply app_nil_r.
  - rewrite IH, after_pending_pass_trace, payloads_app. simpl. apply app_nil_r.
Qed.

(** ** set_ee and regulate_ee up to the moment the config is sent *)

Section Invoke.
Variables (c : entry_point) (target_transform : list (list float)).
Variables (s d : option (list pynum)) (force_bound torque_bound : pynum).
Variable w : World.

Lemma invoke_unreachable :
  reaches_config c w = false ->
  invoke c target_transform s d force_bound torque_bound w
  = (Raised (RuntimeError "Action server connection time out!"),
     emit (EvWaitForServer 3) w).
Proof.
  destruct c as [|fuel]; simpl; [discriminate|].
  intros Hdown. unfold regulate_ee, bind, wait_for_server.
  now rewrite Hdown.
Qed.

Lemma invoke_fill_raised (e : exn) :
  reaches_config c w = true ->
  (forall config w0,
      _fill_in_config config target_transform s d force_bound torque_bound w0
      = (Raised e, w0)) ->
  invoke c target_transform s d force_bound torque_bound w
  = (Raised e, world_at_config c w).
Proof.
  intros Hup Hfill. destruct c as [|fuel]; simpl in *.
  - unfold set_ee, bind. now rewrite Hfill.
  - unfold regulate_ee, bind, wait_for_server. rewrite Hup; simpl.
    now rewrite Hfill.
Qed.

Lemma invoke_fill_returned (cfg : Config) :
  reaches_config c w = true ->
  (forall config w0,
      _fill_in_config config target_transform s d force_bound torque_bound w0
      = (Returned cfg, w0)) ->
  payloads (trace (snd (invoke c target_transform s d force_bound torque_bound w)))
  = payloads (trace w) ++ [cfg].
Proof.
  intros Hup Hfill. destruct c as [|fuel]; simpl in *.
  - unfold set_ee, bind. rewrite Hfill. unfold call_config.
    destruct (config_reply w cfg); simpl; now rewrite payloads_app.
  - unfold regulate_ee, bind, wait_for_server. rewrite Hup; simpl.
    rewrite Hfill. unfold send_goal, get_state, time_time.
    match goal with
    | |- context [wait_while_pending fuel ?st ?t0 ?w1] =>
        pose proof (wait_while_pending_payloads fuel st t0 w1) as Hloop;
        destruct (wait_while_pending fuel st t0 w1) as [[st'| |] w2]
    end; simpl in Hloop |- *.
    + destruct (st' =? ABORTED); unfold get_result, raise, ret; simpl;
        rewrite ?payloads_silent by reflexivity; rewrite Hloop;
        rewrite !payloads_silent by reflexivity;
        rewrite !payloads_app; simpl; now rewrite app_nil_r.
    + rewrite Hloop. rewrite !payloads_silent by reflexivity.
      rewrite !payloads_app; simpl; now rewrite app_nil_r.
    + rewrite Hloop. rewrite !payloads_silent by reflexivity.
      rewrite !payloads_app; simpl; now rewrite app_nil_r.
Qed.

Lemma world_at_config_payloads :
  payloads (trace (world_at_config c w)) = payloads (trace w).
Proof.
  destruct c; simpl; [reflexivity|now rewrite payloads_silent].
Qed.
End Invoke.

(** ** The gains that are sent *)

(** Once the stiffness has passed its length check the fixed gains go out,
    whatever was supplied as damping, and of whatever length. *)
Lemma fixed_gains_sent
    (c : entry_point) (T : list (list float)) (s d : list pynum)
    (fb tb : pynum) (w : World) :
  List.length s = 6%nat ->
  reaches_config c w = true ->
  payloads (trace (snd (invoke c T (Some s) (Some d) fb tb w)))
  = payloads (trace w)
    ++ [mkConfig (flatten_tolist T)
                 (nd_int_1d [150; 150; 150; 10; 10; 10])
                 (nd_int_1d [30; 30; 30; 8; 8; 8]) fb tb].
Proof.
  intros Hs Hup. apply invoke_fill_returned; [exact Hup|].
  intros config w0.
  now rewrite (@fill_in_config_accepts config T fb tb w0 s (Some d) Hs).
Qed.

(** C2: when the caller supplies a stiffness and a damping sequence of
    length 6 each, [set_ee] and [regulate_ee] send at most one config (none
    when [regulate_ee] finds the action server unreachable), and the config
    sent carries stiffness [150,150,150,10,10,10] and damping
    [30,30,30,8,8,8], whatever the values supplied. *)
Theorem supplied_gains_replaced
    (c : entry_point) (T : list (list float)) (s d : list pynum)
    (fb tb : pynum) (w : World) :
  List.length s = 6%nat ->
  List.length d = 6%nat ->
  exists cfg : Config,
    stiffness cfg = nd_int_1d [150; 150; 150; 10; 10; 10]
    /\ damping cfg = nd_int_1d [30; 30; 30; 8; 8; 8]
    /\ payloads (trace (snd (invoke c T (Some s) (Some d) fb tb w)))
       = payloads (trace w) ++ (if reaches_config c w then [cfg] else []).
Proof.
  intros Hs _.
  eexists (mkConfig _ _ _ _ _). split; [reflexivity|]. split; [reflexivity|].
  destruct (reaches_config c w) eqn:Hup.
  - now apply fixed_gains_sent.
  - rewrite invoke_unreachable by exact Hup.
    simpl. rewrite payloads_silent by reflexivity. now rewrite app_nil_r.
Qed.

Lemma supplied_gains_replaced_witness :
  exists cfg : Config,
    stiffness cfg = nd_int_1d [150; 150; 150; 10; 10; 10]
    /\ damping cfg = nd_int_1d [30; 30; 30; 8; 8; 8]
    /\ payloads (trace (snd (invoke (RegulateEe 4) identity_transform
                                    (Some six_gains) (Some six_gains)
                                    default_force_bound default_torque_bound
                                    (example_world true [PENDING; ACTIVE]
                                                   [0; 1]%float sixteen))))
       = payloads (trace (example_world true [PENDING; ACTIVE]
                                        [0; 1]%float sixteen))
         ++ (if reaches_config (RegulateEe 4)
                  (example_world true [PENDING; ACTIVE] [0; 1]%float sixteen)
             then [cfg] else []).
Proof.
  apply (@supplied_gains_replaced (RegulateEe 4) identity_transform
           six_gains six_gains default_force_bound default_torque_bound
           (example_world true [PENDING; ACTIVE] [0; 1]%float sixteen));
    reflexivity.
Defined.

(** C10: when a call to [set_ee] or [regulate_ee] returns normally, exactly
    one config has been sent; if the stiffness was left unset that config
    carries [np.array(None)] as stiffness, and if the damping was left unset
    it carries [np.array(None)] as damping, not the fixed gains. *)
Theorem unset_gains_stay_unset
    (c : entry_point) (T : list (list float)) (s d : option (list pynum))
    (fb tb : pynum) (w : World) :
  fst (invoke c T s d fb tb w) = Returned tt ->
  exists cfg : Config,
    payloads (trace (snd (invoke c T s d fb tb w))) = payloads (trace w) ++ [cfg]
    /\ (s = None -> stiffness cfg = nd_object_None
                    /\ stiffness cfg <> nd_int_1d [150; 150; 150; 10; 10; 10])
    /\ (d = None -> damping cfg = nd_object_None
                    /\ damping cfg <> nd_int_1d [30; 30; 30; 8; 8; 8]).
Proof.
  intros Hret.
  destruct (reaches_config c w) eqn:Hup;
    [|rewrite invoke_unreachable in Hret by exact Hup; discriminate].
  destruct s as [l|].
  - destruct (Nat.eq_dec (List.length l) 6) as [Hl|Hl].
    + eexists. split.
      * apply invoke_fill_returned; [exact Hup|].
        intros config w0. apply fill_in_config_accepts; exact Hl.
      * split; [discriminate|].
        intros ->. simpl. split; [reflexivity|discriminate].
    + rewrite (@invoke_fill_raised c T (Some l) d fb tb w
                 (AssertionError "Stiffness dimension does not match"))
        in Hret; [discriminate|exact Hup|].
      intros config w0. apply fill_in_config_bad_stiffness; exact Hl.
  - destruct d as [l|].
    + rewrite (@invoke_fill_raised c T None (Some l) fb tb w
                 (TypeError "object of type 'NoneType' has no len()"))
        in Hret; [discriminate|exact Hup|].
      intros config w0. apply fill_in_config_len_of_None.
    + eexists. split.
      * apply invoke_fill_returned; [exact Hup|].
        intros config w0. apply fill_in_config_both_unset.
      * simpl. split; intros _; (split; [reflexivity|discriminate]).
Qed.

Lemma unset_gains_stay_unset_witness :
  exists cfg : Config,
    payloads (trace (snd (invoke SetEe identity_transform None None
                                 default_force_bound default_torque_bound
                                 (example_world true [] [] sixteen))))
    = payloads (trace (example_world true [] [] sixteen)) ++ [cfg]
    /\ (@None (list pynum) = None ->
        stiffness cfg = nd_object_None
        /\ stiffness cfg <> nd_int_1d [150; 150; 150; 10; 10; 10])
    /\ (@None (list pynum) = None ->
        damping cfg = nd_object_None
        /\ damping cfg <> nd_int_1d [30; 30; 30; 8; 8; 8]).
Proof.
  apply (@unset_gains_stay_unset SetEe identity_transform None None
           default_force_bound default_torque_bound
           (example_world true [] [] sixteen)).
  reflexivity.
Defined.

(** ** Validation *)

(** C1, as amended: a call to [set_ee], or a call to [regulate_ee] whose wait
    for the action server succeeds, in which the caller supplies a stiffness
    sequence of length other than 6, ends with the assertion error
    "Stiffness dimension does not match", and no request or goal has been
    sent: [set_ee] has touched no endpoint, [regulate_ee] has only waited
    for the server. *)
Theorem stiffness_length_validated
    (c : entry_point) (T : list (list float)) (l : list pynum)
    (d : option (list pynum)) (fb tb : pynum) (w : World) :
  List.length l <> 6%nat ->
  reaches_config c w = true ->
  invoke c T (Some l) d fb tb w
  = (Raised (AssertionError "Stiffness dimension does not match"),
     world_at_config c w)
  /\ fails_validation c T (Some l) d fb tb w.
Proof.
  intros Hl Hup.
  assert (invoke c T (Some l) d fb tb w
          = (Raised (AssertionError "Stiffness dimension does not match"),
             world_at_config c w)) as Hrun.
  { apply invoke_fill_raised; [exact Hup|].
    intros config w0. apply fill_in_config_bad_stiffness; exact Hl. }
  split; [exact Hrun|].
  eexists. rewrite Hrun. split; [reflexivity|].
  apply world_at_config_payloads.
Qed.

Lemma stiffness_length_validated_witness :
  invoke (RegulateEe 4) identity_transform (Some three_gains) None
         default_force_bound default_torque_bound
         (example_world true [ACTIVE] [0]%float sixteen)
  = (Raised (AssertionError "Stiffness dimension does not match"),
     world_at_config (RegulateEe 4)
                     (example_world true [ACTIVE] [0]%float sixteen))
  /\ fails_validation (RegulateEe 4) identity_transform (Some three_gains) None
                      default_force_bound default_torque_bound
                      (example_world true [ACTIVE] [0]%float sixteen).
Proof.
  apply (@stiffness_length_validated (RegulateEe 4) identity_transform
           three_gains None default_force_bound default_torque_bound
           (example_world true [ACTIVE] [0]%float sixteen)).
  - simpl. lia.
  - reflexivity.
Defined.

(** C1 as stated fails twice.  With the action server unreachable,
    [regulate_ee] given a stiffness of length 3 ends with the connection
    time-out, not with a validation error.  And [set_ee] given a damping of
    length 3 next to a stiffness of length 6 returns normally, its request
    sent: line 110 measures [stiffness] where the message it carries names
    the damping. *)
Lemma length_validation_counterexample :
  (wrong_length (Some three_gains)
   /\ fst (invoke (RegulateEe 4) identity_transform (Some three_gains) None
                  default_force_bound default_torque_bound
                  (example_world false [ACTIVE] [0]%float sixteen))
      = Raised (RuntimeError "Action server connection time out!")
   /\ ~ fails_validation (RegulateEe 4) identity_transform
                         (Some three_gains) None
                         default_force_bound default_torque_bound
                         (example_world false [ACTIVE] [0]%float sixteen))
  /\ (wrong_length (Some three_gains)
      /\ fst (invoke SetEe identity_transform (Some six_gains) (Some three_gains)
                     default_force_bound default_torque_bound
                     (example_world true [] [] sixteen))
         = Returned tt
      /\ ~ fails_validation SetEe identity_transform
                            (Some six_gains) (Some three_gains)
                            default_force_bound default_torque_bound
                            (example_world true [] [] sixteen)).
Proof.
  assert (wrong_length (Some three_gains)) as Hwrong.
  { exists three_gains. split; [reflexivity|simpl; lia]. }
  split; (split; [exact Hwrong|]); (split; [reflexivity|]);
    intros [msg [Hfail _]]; discriminate Hfail.
Qed.

(** C9, as amended: a call to [set_ee], or a call to [regulate_ee] whose wait
    for the action server succeeds, in which damping is supplied (of any
    length) while stiffness is left unset, ends with the type error of
    [len(None)], and no request or goal has been sent; the damping sequence
    is not looked at. *)
Theorem damping_without_stiffness_type_error
    (c : entry_point) (T : list (list float)) (d : list pynum)
    (fb tb : pynum) (w : World) :
  reaches_config c w = true ->
  invoke c T None (Some d) fb tb w
  = (Raised (TypeError "object of type 'NoneType' has no len()"),
     world_at_config c w)
  /\ fails_with_type_error c T None (Some d) fb tb w.
Proof.
  intros Hup.
  assert (invoke c T None (Some d) fb tb w
          = (Raised (TypeError "object of type 'NoneType' has no len()"),
             world_at_config c w)) as Hrun.
  { apply invoke_fill_raised; [exact Hup|].
    intros config w0. apply fill_in_config_len_of_None. }
  split; [exact Hrun|].
  eexists. rewrite Hrun. split; [reflexivity|].
  apply world_at_config_payloads.
Qed.

Lemma damping_without_stiffness_type_error_witness :
  invoke SetEe identity_transform None (Some six_gains)
         default_force_bound default_torque_bound
         (example_world true [] [] sixteen)
  = (Raised (TypeError "object of type 'NoneType' has no len()"),
     world_at_config SetEe (example_world true [] [] sixteen))
  /\ fails_with_type_error SetEe identity_transform None (Some six_gains)
                           default_force_bound default_torque_bound
                           (example_world true [] [] sixteen).
Proof.
  apply (@damping_without_stiffness_type_error SetEe identity_transform
           six_gains default_force_bound default_torque_bound
           (example_world true [] [] sixteen)).
  reflexivity.
Defined.

(** C9 as stated fails on [regulate_ee] when the action server is
    unreachable: the call ends with the connection time-out before
    [_fill_in_config] is entered, so no type error is raised. *)
Lemma type_error_counterexample :
  fst (invoke (RegulateEe 4) identity_transform None (Some six_gains)
              default_force_bound default_torque_bound
              (example_world false [ACTIVE] [0]%float sixteen))
  = Raised (RuntimeError "Action server connection time out!")
  /\ ~ fails_with_type_error (RegulateEe 4) identity_transform
                             None (Some six_gains)
                             default_force_bound default_torque_bound
                             (example_world false [ACTIVE] [0]%float sixteen).
Proof.
  split; [reflexivity|].
  intros [msg [Hfail _]]; discriminate Hfail.
Qed.

(** ** The loop of regulate_ee *)

Lemma passes_trace_step (tr pass : list event) (n : nat) :
  (tr ++ pass) ++ passes pass n = tr ++ passes pass (S n).
Proof. simpl. now rewrite app_assoc. Qed.

Lemma observed_after_pass (state : Z) (w : World) (k : nat) :
  observed (goal_states w O) (after_pending_pass w) k = observed state w (S k).
Proof. destruct k; reflexivity. Qed.

(** The status leaves PENDING at the [n]-th read with no deadline check
    having fired: the loop returns that status after [n] passes. *)
Lemma wait_while_pending_leaves (n : nat) :
  forall (fuel : nat) (state : Z) (t0 : float) (w : World),
    (n < fuel)%nat ->
    (forall k, (k < n)%nat -> observed state w k = PENDING) ->
    observed state w n <> PENDING ->
    (forall k, (k < n)%nat -> elapsed_gt (clock w k) t0 10%float = false) ->
    exists w' : World,
      wait_while_pending fuel state t0 w = (Returned (observed state w n), w')
      /\ trace w' = trace w ++ passes pending_pass n
      /\ goal_result w' = goal_result w.
Proof.
  induction n as [|n IH]; intros fuel state t0 w Hfuel Hpend Hleft Hclock;
    (destruct fuel as [|fuel]; [lia|]); rewrite wait_while_pending_unfold.
  - simpl in Hleft. apply Z.eqb_neq in Hleft. rewrite Hleft.
    exists w. simpl. now rewrite app_nil_r.
  - replace (state =? PENDING) with true
      by (symmetry; apply Z.eqb_eq; apply (Hpend O); lia).
    rewrite (Hclock O) by lia.
    destruct (IH fuel (goal_states w O) t0 (after_pending_pass w))
      as [w' [Hrun [Htrace Hres]]].
    + lia.
    + intros k Hk. rewrite (observed_after_pass state). apply Hpend; lia.
    + now rewrite (observed_after_pass state).
    + intros k Hk. apply (Hclock (S k)); lia.
    + exists w'. rewrite Hrun, (observed_after_pass state).
      split; [reflexivity|]. split; [|exact Hres].
      rewrite Htrace, after_pending_pass_trace. apply passes_trace_step.
Qed.

(** The deadline check fires in pass [m + 1], every status the loop tested
    so far being PENDING: the goal is cancelled and "Timeout!" raised. *)
Lemma wait_while_pending_times_out (m : nat) :
  forall (fuel : nat) (state : Z) (t0 : float) (w : World),
    (m < fuel)%nat ->
    (forall k, (k <= m)%nat -> observed state w k = PENDING) ->
    (forall k, (k < m)%nat -> elapsed_gt (clock w k) t0 10%float = false) ->
    elapsed_gt (clock w m) t0 10%float = true ->
    exists w' : World,
      wait_while_pending fuel state t0 w = (Raised (RuntimeError "Timeout!"), w')
      /\ trace w' = trace w ++ passes pending_pass (S m) ++ [EvCancelGoal].
Proof.
  induction m as [|m IH]; intros fuel state t0 w Hfuel Hpend Hclock Hfire;
    (destruct fuel as [|fuel]; [lia|]); rewrite wait_while_pending_unfold;
    replace (state =? PENDING) with true
      by (symmetry; apply Z.eqb_eq; apply (Hpend O); lia).
  - rewrite Hfire. eexists. split; [reflexivity|].
    cbn [emit trace]. rewrite after_pending_pass_trace.
    simpl. now rewrite <- !app_assoc.
  - rewrite (Hclock O) by lia.
    destruct (IH fuel (goal_states w O) t0 (after_pending_pass w))
      as [w' [Hrun Htrace]].
    + lia.
    + intros k Hk. rewrite (observed_after_pass state). apply Hpend; lia.
    + intros k Hk. apply (Hclock (S k)); lia.
    + exact Hfire.
    + exists w'. split; [exact Hrun|].
      rewrite Htrace, after_pending_pass_trace.
      rewrite app_assoc. rewrite passes_trace_step. now rewrite <- app_assoc.
Qed.

(** Whatever the feeds, the only exception the loop raises is "Timeout!",
    and the last thing it did before raising was to cancel the goal. *)
Lemma wait_while_pending_raises (fuel : nat) :
  forall (state : Z) (t0 : float) (w w' : World) (e : exn),
    wait_while_pending fuel state t0 w = (Raised e, w') ->
    e = RuntimeError "Timeout!"
    /\ exists pre, trace w' = pre ++ [EvCancelGoal].
Proof.
  induction fuel as [|fuel IH]; intros state t0 w w' e Hrun; [discriminate|].
  rewrite wait_while_pending_unfold in Hrun.
  destruct (state =? PENDING); [|discriminate].
  destruct (elapsed_gt (clock w O) t0 10%float).
  - injection Hrun as <- <-. split; [reflexivity|].
    now exists (trace (after_pending_pass w)).
  - exact (IH _ _ _ _ _ Hrun).
Qed.

Lemma wait_while_pending_extends (fuel : nat) :
  forall (state : Z) (t0 : float) (w : World),
    exists evs, trace (snd (wait_while_pending fuel state t0 w)) = trace w ++ evs.
Proof.
  induction fuel as [|fuel IH]; intros state t0 w.
  - exists []. simpl. now rewrite app_nil_r.
  - rewrite wait_while_pending_unfold.
    destruct (state =? PENDING);
      [|exists []; simpl; now rewrite app_nil_r].
    destruct (elapsed_gt (clock w O) t0 10%float).
    + exists (pending_pass ++ [EvCancelGoal]).
      cbn [snd emit trace]. rewrite after_pending_pass_trace.
      now rewrite app_assoc.
    + destruct (IH (goal_states w O) t0 (after_pending_pass w)) as [evs Hevs].
      exists (pending_pass ++ evs).
      rewrite Hevs, after_pending_pass_trace. now rewrite app_assoc.
Qed.

(** ** regulate_ee *)

(** [_fill_in_config] touches no endpoint: it returns or raises, the same
    way in every world. *)
Lemma fill_in_config_outcome
    (config : Config) (T : list (list float)) (s d : option (list pynum))
    (fb tb : pynum) :
  (exists cfg, forall w, _fill_in_config config T s d fb tb w = (Returned cfg, w))
  \/ (exists e, forall w, _fill_in_config config T s d fb tb w = (Raised e, w)).
Proof.
  destruct s as [l|].
  - destruct (Nat.eq_dec (List.length l) 6) as [Hl|Hl].
    + left. eexists. intros w. apply fill_in_config_accepts; exact Hl.
    + right. eexists. intros w. apply fill_in_config_bad_stiffness; exact Hl.
  - destruct d as [l|].
    + right. eexists. intros w. apply fill_in_config_len_of_None.
    + left. eexists. intros w. apply fill_in_config_both_unset.
Qed.

Lemma fill_in_config_world
    (config : Config) (T : list (list float)) (s d : option (list pynum))
    (fb tb : pynum) (w w0 : World) :
  _fill_in_config config T s d fb tb w0
  = (fst (_fill_in_config config T s d fb tb w), w0).
Proof.
  destruct (fill_in_config_outcome config T s d fb tb) as [[cfg H]|[e H]];
    now rewrite (H w), (H w0).
Qed.

(** [regulate_ee] from the moment the goal is out. *)
Lemma regulate_ee_submitted
    (fuel : nat) (T : list (list float)) (s d : option (list pynum))
    (fb tb : pynum) (w : World) (cfg : Config) :
  server_reachable w = true ->
  fst (_fill_in_config Config_new T s d fb tb w) = Returned cfg ->
  regulate_ee fuel T s d fb tb w
  = match wait_while_pending fuel (goal_states w O) (clock w O)
                             (world_at_pending_loop cfg w) with
    | (Returned state, w') =>
        if state =? ABORTED
        then (Raised (RuntimeError
                        (String.append "Goal aborted! " (status (goal_result w')))),
              emit EvGetResult w')
        else (Returned tt, w')
    | (Raised e, w') => (Raised e, w')
    | (OutOfFuel, w') => (OutOfFuel, w')
    end.
Proof.
  intros Hup Hfill. unfold regulate_ee, bind, wait_for_server.
  rewrite Hup. cbn [negb].
  rewrite (fill_in_config_world Config_new T s d fb tb w), Hfill.
  unfold send_goal, get_state, time_time. cbn [emit next_state goal_states clock].
  fold (world_at_pending_loop cfg w).
  destruct (wait_while_pending fuel (goal_states w O) (clock w O)
                               (world_at_pending_loop cfg w))
    as [[state| |] w']; try reflexivity.
  destruct (state =? ABORTED); reflexivity.
Qed.

Lemma regulate_ee_fill_raised
    (fuel : nat) (T : list (list float)) (s d : option (list pynum))
    (fb tb : pynum) (w : World) (e : exn) :
  server_reachable w = true ->
  fst (_fill_in_config Config_new T s d fb tb w) = Raised e ->
  regulate_ee fuel T s d fb tb w = (Raised e, emit (EvWaitForServer 3) w).
Proof.
  intros Hup Hfill. unfold regulate_ee, bind, wait_for_server.
  rewrite Hup. cbn [negb].
  now rewrite (fill_in_config_world Config_new T s d fb tb w), Hfill.
Qed.

Lemma world_at_pending_loop_trace (cfg : Config) (w : World) :
  trace (world_at_pending_loop cfg w)
  = trace w ++ [EvWaitForServer 3; EvSendGoal cfg; EvGetState; EvTime].
Proof. simpl. now rewrite <- !app_assoc. Qed.

Lemma regulate_ee_trace
    (fuel : nat) (T : list (list float)) (s d : option (list pynum))
    (fb tb : pynum) (w : World) :
  exists rest,
    trace (snd (regulate_ee fuel T s d fb tb w))
    = trace w ++ EvWaitForServer 3 :: rest
    /\ (server_reachable w = false -> rest = []).
Proof.
  destruct (server_reachable w) eqn:Hup.
  - destruct (fill_in_config_outcome Config_new T s d fb tb) as [[cfg H]|[e H]].
    + rewrite (@regulate_ee_submitted fuel T s d fb tb w cfg Hup)
        by now rewrite H.
      destruct (wait_while_pending_extends fuel (goal_states w O) (clock w O)
                  (world_at_pending_loop cfg w)) as [evs Hevs].
      rewrite world_at_pending_loop_trace in Hevs.
      destruct (wait_while_pending fuel (goal_states w O) (clock w O)
                                   (world_at_pending_loop cfg w))
        as [[state| |] w']; simpl in Hevs.
      * destruct (state =? ABORTED); cbn [snd emit trace]; rewrite Hevs;
          rewrite <- !app_assoc; simpl; eexists; (split; [reflexivity|discriminate]).
      * cbn [snd]. rewrite Hevs, <- app_assoc. simpl.
        eexists; (split; [reflexivity|discriminate]).
      * cbn [snd]. rewrite Hevs, <- app_assoc. simpl.
        eexists; (split; [reflexivity|discriminate]).
    + exists []. split; [|reflexivity].
      rewrite (@regulate_ee_fill_raised fuel T s d fb tb w e Hup)
        by now rewrite H.
      reflexivity.
  - exists []. split; [|reflexivity].
    change (regulate_ee fuel) with (invoke (RegulateEe fuel)).
    now rewrite (@invoke_unreachable (RegulateEe fuel) T s d fb tb w Hup).
Qed.

(** C5: [regulate_ee] begins by waiting for the action server, for 3
    seconds.  If the server is not reachable in that time the call ends with
    the error "Action server connection time out!" having done nothing else,
    so no goal is submitted; a goal is among the later calls only when the
    wait succeeded. *)
Theorem regulate_ee_waits_for_server
    (fuel : nat) (T : list (list float)) (s d : option (list pynum))
    (fb tb : pynum) (w : World) :
  exists rest : list event,
    trace (snd (regulate_ee fuel T s d fb tb w))
    = trace w ++ EvWaitForServer 3 :: rest
    /\ (server_reachable w = false ->
        regulate_ee fuel T s d fb tb w
        = (Raised (RuntimeError "Action server connection time out!"),
           emit (EvWaitForServer 3) w)
        /\ rest = [])
    /\ (payloads rest <> [] -> server_reachable w = true).
Proof.
  destruct (regulate_ee_trace fuel T s d fb tb w) as [rest [Htrace Hdown]].
  exists rest. split; [exact Htrace|]. split.
  - intros Hoff. split; [|exact (Hdown Hoff)].
    change (regulate_ee fuel) with (invoke (RegulateEe fuel)).
    now apply invoke_unreachable.
  - intros Hsent. destruct (server_reachable w); [reflexivity|].
    rewrite Hdown in Hsent by reflexivity. now elim Hsent.
Qed.

(** C3, as amended: let the goal be submitted, and let the first status that
    is not PENDING be the [n]-th one read, with none of the deadline checks
    of passes 1 to [n] firing (the check of pass [n] comes after the [n]-th
    read).  If that status is ABORTED, [regulate_ee] fetches the result and
    raises "Goal aborted! " followed by the result's status; for any other
    status it returns normally, and its last call on the action client is
    the read that saw the status. *)
Theorem regulate_ee_leaves_pending
    (fuel : nat) (T : list (list float)) (s d : option (list pynum))
    (fb tb : pynum) (w : World) (cfg : Config) (n : nat) :
  server_reachable w = true ->
  fst (_fill_in_config Config_new T s d fb tb w) = Returned cfg ->
  (forall k, (k < n)%nat -> goal_states w k = PENDING) ->
  goal_states w n <> PENDING ->
  (forall k, (1 <= k <= n)%nat ->
             elapsed_gt (clock w k) (clock w O) 10%float = false) ->
  (n < fuel)%nat ->
  fst (regulate_ee fuel T s d fb tb w)
  = (if goal_states w n =? ABORTED
     then Raised (RuntimeError
                    (String.append "Goal aborted! " (status (goal_result w))))
     else Returned tt)
  /\ trace (snd (regulate_ee fuel T s d fb tb w))
     = trace w
       ++ [EvWaitForServer 3; EvSendGoal cfg; EvGetState; EvTime]
       ++ passes pending_pass n
       ++ (if goal_states w n =? ABORTED then [EvGetResult] else []).
Proof.
  intros Hup Hfill Hpend Hleft Hclock Hfuel.
  rewrite (@regulate_ee_submitted fuel T s d fb tb w cfg Hup Hfill).
  assert (forall k, observed (goal_states w O) (world_at_pending_loop cfg w) k
                    = goal_states w k) as Hobs
      by (intros [|k]; reflexivity).
  destruct (@wait_while_pending_leaves n fuel (goal_states w O) (clock w O)
              (world_at_pending_loop cfg w)) as [w' [Hrun [Htrace Hres]]].
  - exact Hfuel.
  - intros k Hk. rewrite Hobs. now apply Hpend.
  - now rewrite Hobs.
  - intros k Hk. apply (Hclock (S k)). lia.
  - rewrite Hrun, Hobs.
    rewrite world_at_pending_loop_trace in Htrace.
    destruct (goal_states w n =? ABORTED); cbn [fst snd emit trace].
    + rewrite Hres, Htrace. split; [reflexivity|].
      now rewrite <- !app_assoc.
    + rewrite Htrace. split; [reflexivity|].
      now rewrite app_nil_r, <- app_assoc.
Qed.

(** C4: let the goal be submitted, let every status tested by the loop up to
    pass [m + 1] be PENDING, and let the deadline check, more than 10 seconds
    after [t0], fire first in pass [m + 1].  Then [regulate_ee] raises
    "Timeout!", and the last thing it did before raising was to cancel the
    goal; it cancelled once. *)
Theorem regulate_ee_pending_timeout
    (fuel : nat) (T : list (list float)) (s d : option (list pynum))
    (fb tb : pynum) (w : World) (cfg : Config) (m : nat) :
  server_reachable w = true ->
  fst (_fill_in_config Config_new T s d fb tb w) = Returned cfg ->
  (forall k, (k <= m)%nat -> goal_states w k = PENDING) ->
  (forall k, (1 <= k <= m)%nat ->
             elapsed_gt (clock w k) (clock w O) 10%float = false) ->
  elapsed_gt (clock w (S m)) (clock w O) 10%float = true ->
  (m < fuel)%nat ->
  fst (regulate_ee fuel T s d fb tb w) = Raised (RuntimeError "Timeout!")
  /\ trace (snd (regulate_ee fuel T s d fb tb w))
     = trace w
       ++ [EvWaitForServer 3; EvSendGoal cfg; EvGetState; EvTime]
       ++ passes pending_pass (S m)
       ++ [EvCancelGoal]
  /\ cancels (trace (snd (regulate_ee fuel T s d fb tb w)))
     = S (cancels (trace w)).
Proof.
  intros Hup Hfill Hpend Hclock Hfire Hfuel.
  rewrite (@regulate_ee_submitted fuel T s d fb tb w cfg Hup Hfill).
  assert (forall k, observed (goal_states w O) (world_at_pending_loop cfg w) k
                    = goal_states w k) as Hobs
      by (intros [|k]; reflexivity).
  destruct (@wait_while_pending_times_out m fuel (goal_states w O) (clock w O)
              (world_at_pending_loop cfg w)) as [w' [Hrun Htrace]].
  - exact Hfuel.
  - intros k Hk. rewrite Hobs. now apply Hpend.
  - intros k Hk. apply (Hclock (S k)). lia.
  - exact Hfire.
  - rewrite Hrun. cbn [fst snd].
    rewrite world_at_pending_loop_trace in Htrace.
    assert (trace w'
            = trace w
              ++ [EvWaitForServer 3; EvSendGoal cfg; EvGetState; EvTime]
              ++ passes pending_pass (S m) ++ [EvCancelGoal]) as Htrace'
        by (rewrite Htrace; now rewrite <- !app_assoc).
    split; [reflexivity|]. split; [exact Htrace'|].
    rewrite Htrace', !cancels_app.
    assert (forall k, cancels (passes pending_pass k) = O) as Hnone
        by (intros k; induction k as [|k IHk]; [reflexivity|exact IHk]).
    rewrite Hnone. simpl. lia.
Qed.

(** Whenever [regulate_ee] ends with "Timeout!", whatever the feeds and the
    arguments, the last event of its trace is the cancellation. *)
Lemma regulate_ee_timeout_after_cancel
    (fuel : nat) (T : list (list float)) (s d : option (list pynum))
    (fb tb : pynum) (w : World) :
  fst (regulate_ee fuel T s d fb tb w) = Raised (RuntimeError "Timeout!") ->
  exists pre, trace (snd (regulate_ee fuel T s d fb tb w)) = pre ++ [EvCancelGoal].
Proof.
  intros Hout.
  destruct (server_reachable w) eqn:Hup.
  - destruct (fill_in_config_outcome Config_new T s d fb tb) as [[cfg H]|[e H]].
    + assert (fst (_fill_in_config Config_new T s d fb tb w) = Returned cfg)
        as Hfill by now rewrite H.
      rewrite (@regulate_ee_submitted fuel T s d fb tb w cfg Hup Hfill) in Hout |- *.
      destruct (wait_while_pending fuel (goal_states w O) (clock w O)
                                   (world_at_pending_loop cfg w))
        as [[state| |] w'] eqn:Hrun.
      * destruct (state =? ABORTED); discriminate Hout.
      * destruct (wait_while_pending_raises _ _ _ _ Hrun) as [_ Hlast].
        exact Hlast.
      * discriminate Hout.
    + assert (fst (_fill_in_config Config_new T s d fb tb w) = Raised e)
        as Hfill by now rewrite H.
      rewrite (@regulate_ee_fill_raised fuel T s d fb tb w e Hup Hfill) in Hout.
      simpl in Hout. injection Hout as ->.
      destruct s as [l|];
        [destruct (Nat.eq_dec (List.length l) 6) as [Hl|Hl]|destruct d].
      * rewrite (@fill_in_config_accepts Config_new T fb tb w l d Hl) in Hfill.
        discriminate.
      * rewrite (@fill_in_config_bad_stiffness Config_new T fb tb w l d Hl) in Hfill.
        discriminate.
      * discriminate.
      * discriminate.
  - change (regulate_ee fuel) with (invoke (RegulateEe fuel)) in Hout.
    rewrite (@invoke_unreachable (RegulateEe fuel) T s d fb tb w Hup) in Hout.
    discriminate.
Qed.

Lemma regulate_ee_leaves_pending_witness :
  fst (regulate_ee 5 identity_transform None None
                   default_force_bound default_torque_bound aborting_world)
  = (if goal_states aborting_world 2 =? ABORTED
     then Raised (RuntimeError
                    (String.append "Goal aborted! "
                                   (status (goal_result aborting_world))))
     else Returned tt)
  /\ trace (snd (regulate_ee 5 identity_transform None None
                             default_force_bound default_torque_bound
                             aborting_world))
     = trace aborting_world
       ++ [EvWaitForServer 3; EvSendGoal unset_config; EvGetState; EvTime]
       ++ passes pending_pass 2
       ++ (if goal_states aborting_world 2 =? ABORTED then [EvGetResult] else []).
Proof.
  apply (@regulate_ee_leaves_pending 5 identity_transform None None
           default_force_bound default_torque_bound aborting_world
           unset_config 2).
  - reflexivity.
  - reflexivity.
  - intros [|[|k]] Hk; [reflexivity|reflexivity|lia].
  - discriminate.
  - intros [|[|[|k]]] Hk; [lia|reflexivity|reflexivity|lia].
  - lia.
Defined.

(** C3 as stated fails when the status leaves PENDING in a pass whose
    deadline check fires: in [late_world] the first status read is PENDING
    and the second, read in the first pass, is ACTIVE, but the clock then
    reads 10.5 seconds past [t0], and [regulate_ee] cancels the goal and
    raises "Timeout!" where the claim has it return normally. *)
Lemma leaves_pending_counterexample :
  server_reachable late_world = true
  /\ goal_states late_world 0 = PENDING
  /\ goal_states late_world 1 = ACTIVE
  /\ fst (regulate_ee 5 identity_transform None None
                      default_force_bound default_torque_bound late_world)
     = Raised (RuntimeError "Timeout!")
  /\ fst (regulate_ee 5 identity_transform None None
                      default_force_bound default_torque_bound late_world)
     <> Returned tt
  /\ trace (snd (regulate_ee 5 identity_transform None None
                             default_force_bound default_torque_bound
                             late_world))
     = [EvWaitForServer 3; EvSendGoal unset_config; EvGetState; EvTime;
        EvGetState; EvRospySleep 0.001%float; EvTime; EvCancelGoal].
Proof.
  repeat split; try reflexivity. discriminate.
Qed.

Lemma regulate_ee_pending_timeout_witness :
  fst (regulate_ee 5 identity_transform None None
                   default_force_bound default_torque_bound stuck_world)
  = Raised (RuntimeError "Timeout!")
  /\ trace (snd (regulate_ee 5 identity_transform None None
                             default_force_bound default_torque_bound
                             stuck_world))
     = trace stuck_world
       ++ [EvWaitForServer 3; EvSendGoal unset_config; EvGetState; EvTime]
       ++ passes pending_pass 2
       ++ [EvCancelGoal]
  /\ cancels (trace (snd (regulate_ee 5 identity_transform None None
                                      default_force_bound default_torque_bound
                                      stuck_world)))
     = S (cancels (trace stuck_world)).
Proof.
  apply (@regulate_ee_pending_timeout 5 identity_transform None None
           default_force_bound default_torque_bound stuck_world
           unset_config 1).
  - reflexivity.
  - reflexivity.
  - intros [|[|k]] Hk; [reflexivity|reflexivity|lia].
  - intros [|[|k]] Hk; [lia|reflexivity|lia].
  - reflexivity.
  - lia.
Defined.

(** ** stop *)

Lemma wait_until_idle_unfold (fuel : nat) (t0 : float) (w : World) :
  wait_until_idle (S fuel) t0 w =
    if idle_status (goal_states w O)
    then (Returned tt, next_state (emit EvGetState w))
    else if elapsed_gt (clock w O) t0 3%float
         then (Raised (RuntimeError "Stop timeout!"), after_busy_pass w)
         else wait_until_idle fuel t0 (after_busy_pass w).
Proof.
  simpl. unfold bind at 1. rewrite is_idle_run. fold (idle_status (goal_states w O)).
  destruct (idle_status (goal_states w O)); [reflexivity|].
  unfold bind, time_sleep, time_time, raise; simpl.
  destruct (elapsed_gt (clock w O) t0 3%float); reflexivity.
Qed.

Lemma after_busy_pass_trace (w : World) :
  trace (after_busy_pass w) = trace w ++ busy_pass.
Proof. simpl. now rewrite <- !app_assoc. Qed.

Lemma passes_no_cancel (n : nat) : cancels (passes busy_pass n) = O.
Proof. induction n as [|n IH]; [reflexivity|exact IH]. Qed.

(** The loop of [stop] cancels nothing. *)
Lemma wait_until_idle_cancels (fuel : nat) :
  forall (t0 : float) (w : World),
    cancels (trace (snd (wait_until_idle fuel t0 w))) = cancels (trace w).
Proof.
  induction fuel as [|fuel IH]; intros t0 w; [reflexivity|].
  rewrite wait_until_idle_unfold.
  destruct (idle_status (goal_states w O)).
  - cbn [snd next_state emit trace]. rewrite cancels_app. simpl. lia.
  - destruct (elapsed_gt (clock w O) t0 3%float).
    + cbn [snd]. rewrite after_busy_pass_trace, cancels_app. simpl. lia.
    + rewrite IH, after_busy_pass_trace, cancels_app. simpl. lia.
Qed.

(** The robot is busy at every test up to pass [m + 1], whose deadline check
    is the first to fire: "Stop timeout!" is raised. *)
Lemma wait_until_idle_times_out (m : nat) :
  forall (fuel : nat) (t0 : float) (w : World),
    (m < fuel)%nat ->
    (forall k, (k <= m)%nat -> idle_status (goal_states w k) = false) ->
    (forall k, (k < m)%nat -> elapsed_gt (clock w k) t0 3%float = false) ->
    elapsed_gt (clock w m) t0 3%float = true ->
    exists w' : World,
      wait_until_idle fuel t0 w = (Raised (RuntimeError "Stop timeout!"), w')
      /\ trace w' = trace w ++ passes busy_pass (S m).
Proof.
  induction m as [|m IH]; intros fuel t0 w Hfuel Hbusy Hclock Hfire;
    (destruct fuel as [|fuel]; [lia|]); rewrite wait_until_idle_unfold;
    rewrite (Hbusy O) by lia.
  - rewrite Hfire. eexists. split; [reflexivity|].
    rewrite after_busy_pass_trace. reflexivity.
  - rewrite (Hclock O) by lia.
    destruct (IH fuel t0 (after_busy_pass w)) as [w' [Hrun Htrace]].
    + lia.
    + intros k Hk. apply (Hbusy (S k)); lia.
    + intros k Hk. apply (Hclock (S k)); lia.
    + exact Hfire.
    + exists w'. split; [exact Hrun|].
      rewrite Htrace, after_busy_pass_trace. apply passes_trace_step.
Qed.

(** The robot is found idle at the test of pass [m + 1], no deadline check
    having fired before: the loop ends and [stop] returns. *)
Lemma wait_until_idle_returns (m : nat) :
  forall (fuel : nat) (t0 : float) (w : World),
    (m < fuel)%nat ->
    (forall k, (k < m)%nat -> idle_status (goal_states w k) = false) ->
    (forall k, (k < m)%nat -> elapsed_gt (clock w k) t0 3%float = false) ->
    idle_status (goal_states w m) = true ->
    exists w' : World,
      wait_until_idle fuel t0 w = (Returned tt, w')
      /\ trace w' = trace w ++ passes busy_pass m ++ [EvGetState].
Proof.
  induction m as [|m IH]; intros fuel t0 w Hfuel Hbusy Hclock Hidle;
    (destruct fuel as [|fuel]; [lia|]); rewrite wait_until_idle_unfold.
  - rewrite Hidle. eexists. split; reflexivity.
  - rewrite (Hbusy O), (Hclock O) by lia.
    destruct (IH fuel t0 (after_busy_pass w)) as [w' [Hrun Htrace]].
    + lia.
    + intros k Hk. apply (Hbusy (S k)); lia.
    + intros k Hk. apply (Hclock (S k)); lia.
    + exact Hidle.
    + exists w'. split; [exact Hrun|].
      rewrite Htrace, after_busy_pass_trace.
      rewrite app_assoc, passes_trace_step. now rewrite <- app_assoc.
Qed.

Lemma stop_unfold (fuel : nat) (w : World) :
  stop fuel w =
    if idle_status (goal_states w O)
    then (Returned tt,
          emit (EvLogInfo "Robot is idle. No need to stop")
               (next_state (emit EvGetState w)))
    else wait_until_idle fuel (clock w O) (world_at_busy_loop w).
Proof.
  unfold stop. unfold bind at 1. rewrite is_idle_run.
  fold (idle_status (goal_states w O)).
  destruct (idle_status (goal_states w O)); reflexivity.
Qed.

Lemma world_at_busy_loop_trace (w : World) :
  trace (world_at_busy_loop w) = trace w ++ [EvGetState; EvCancelGoal; EvTime].
Proof. simpl. now rewrite <- !app_assoc. Qed.

(** C8: if the first [is_idle] of [stop] answers [True], [stop] logs and
    returns at once and no cancel is issued.  Otherwise it issues exactly
    one cancel, right after that first test, and then polls [is_idle]:
    if the robot is still busy at every test up to a pass whose clock
    reading is more than 3 seconds past [t0], [stop] raises
    "Stop timeout!"; if a test finds it idle before any such reading,
    [stop] returns. *)
Theorem stop_cancels_and_waits (fuel : nat) (w : World) :
  (idle_status (goal_states w O) = true ->
   stop fuel w
   = (Returned tt,
      emit (EvLogInfo "Robot is idle. No need to stop")
           (next_state (emit EvGetState w)))
   /\ cancels (trace (snd (stop fuel w))) = cancels (trace w))
  /\ (idle_status (goal_states w O) = false ->
      cancels (trace (snd (stop fuel w))) = S (cancels (trace w))
      /\ (forall m : nat,
             (m < fuel)%nat ->
             (forall k, (1 <= k <= S m)%nat ->
                        idle_status (goal_states w k) = false) ->
             (forall k, (1 <= k <= m)%nat ->
                        elapsed_gt (clock w k) (clock w O) 3%float = false) ->
             elapsed_gt (clock w (S m)) (clock w O) 3%float = true ->
             fst (stop fuel w) = Raised (RuntimeError "Stop timeout!")
             /\ trace (snd (stop fuel w))
                = trace w ++ [EvGetState; EvCancelGoal; EvTime]
                  ++ passes busy_pass (S m))
      /\ (forall m : nat,
             (m < fuel)%nat ->
             (forall k, (1 <= k <= m)%nat ->
                        idle_status (goal_states w k) = false) ->
             (forall k, (1 <= k <= m)%nat ->
                        elapsed_gt (clock w k) (clock w O) 3%float = false) ->
             idle_status (goal_states w (S m)) = true ->
             fst (stop fuel w) = Returned tt
             /\ trace (snd (stop fuel w))
                = trace w ++ [EvGetState; EvCancelGoal; EvTime]
                  ++ passes busy_pass m ++ [EvGetState])).
Proof.
  rewrite stop_unfold. split; intros Hfirst; rewrite Hfirst.
  - split; [reflexivity|].
    cbn [snd emit next_state trace]. rewrite !cancels_app. simpl. lia.
  - split; [|split].
    + rewrite wait_until_idle_cancels, world_at_busy_loop_trace, cancels_app.
      simpl. lia.
    + intros m Hfuel Hbusy Hclock Hfire.
      destruct (@wait_until_idle_times_out m fuel (clock w O)
                  (world_at_busy_loop w)) as [w' [Hrun Htrace]].
      * exact Hfuel.
      * intros k Hk. apply (Hbusy (S k)); lia.
      * intros k Hk. apply (Hclock (S k)); lia.
      * exact Hfire.
      * rewrite Hrun. split; [reflexivity|].
        cbn [snd]. rewrite Htrace, world_at_busy_loop_trace.
        now rewrite <- app_assoc.
    + intros m Hfuel Hbusy Hclock Hidle.
      destruct (@wait_until_idle_returns m fuel (clock w O)
                  (world_at_busy_loop w)) as [w' [Hrun Htrace]].
      * exact Hfuel.
      * intros k Hk. apply (Hbusy (S k)); lia.
      * intros k Hk. apply (Hclock (S k)); lia.
      * exact Hidle.
      * rewrite Hrun. split; [reflexivity|].
        cbn [snd]. rewrite Htrace, world_at_busy_loop_trace.
        now rewrite <- app_assoc.
Qed.

Lemma stop_cancels_and_waits_witness :
  (stop 5 idle_world
   = (Returned tt,
      emit (EvLogInfo "Robot is idle. No need to stop")
           (next_state (emit EvGetState idle_world)))
   /\ cancels (trace (snd (stop 5 idle_world))) = cancels (trace idle_world))
  /\ (cancels (trace (snd (stop 5 busy_world))) = S (cancels (trace busy_world))
      /\ fst (stop 5 busy_world) = Raised (RuntimeError "Stop timeout!")
      /\ trace (snd (stop 5 busy_world))
         = trace busy_world ++ [EvGetState; EvCancelGoal; EvTime]
           ++ passes busy_pass 2).
Proof.
  split.
  - apply (proj1 (stop_cancels_and_waits 5 idle_world)). reflexivity.
  - destruct (proj2 (stop_cancels_and_waits 5 busy_world) eq_refl)
      as [Honce [Hlate _]].
    split; [exact Honce|].
    apply (Hlate 1%nat).
    + lia.
    + intros [|[|[|k]]] Hk; [lia|reflexivity|reflexivity|lia].
    + intros [|[|k]] Hk; [lia|reflexivity|lia].
    + reflexivity.
Defined.

(** * Further properties *)

(** ** The pose: reshape and flatten *)

(** Flattening the rows cut out of [l] gives [l] back. *)
Lemma flatten_rows_of (A : Type) (rows cols : nat) (l : list A) :
  List.length l = (rows * cols)%nat ->
  flatten_tolist (rows_of rows cols l) = l.
Proof.
  unfold flatten_tolist.
  revert l; induction rows as [|r IH]; intros l Hlen; simpl.
  - destruct l; [reflexivity|discriminate].
  - rewrite IH by (rewrite length_skipn; simpl in Hlen; lia).
    apply firstn_skipn.
Qed.

Lemma get_ee_transform_run (w : World) :
  get_ee_transform w
  = (match ee_reply w with
     | Reply v =>
         if Nat.eqb (List.length v) 16
         then Returned (rows_of 4 4 v)
         else Raised (ValueError "cannot reshape array into the requested shape")
     | Fault msg => Raised (ServiceException msg)
     end,
     emit EvCallGetEe w).
Proof.
  unfold get_ee_transform, bind, call_get_ee, reshape.
  destruct (ee_reply w) as [v|msg]; [|reflexivity].
  change (4 * 4)%nat with 16%nat.
  destruct (Nat.eqb (List.length v) 16); reflexivity.
Qed.

(** X1: whenever [get_ee_transform] returns, the service has answered with
    exactly sixteen values, the matrix returned has four rows of four, and
    flattening it row by row gives those sixteen values back, in order. *)
Theorem get_ee_transform_returns_the_payload
    (w : World) (m : list (list float)) :
  fst (get_ee_transform w) = Returned m ->
  exists v : list float,
    ee_reply w = Reply v
    /\ List.length v = 16%nat
    /\ flatten_tolist m = v
    /\ List.length m = 4%nat
    /\ (forall row, In row m -> List.length row = 4%nat).
Proof.
  rewrite get_ee_transform_run. cbn [fst].
  destruct (ee_reply w) as [v|msg]; [|discriminate].
  destruct (Nat.eqb_spec (List.length v) 16) as [Hlen|_]; [|discriminate].
  intros Hret.
  assert (m = rows_of 4 4 v) as -> by congruence.
  exists v. split; [reflexivity|]. split; [exact Hlen|].
  split; [now apply flatten_rows_of|].
  split; [apply rows_of_length|].
  intros row Hin. now apply (rows_of_row_length 4 4 v).
Qed.

Lemma get_ee_transform_returns_the_payload_witness :
  exists v : list float,
    ee_reply (example_world true [] [] sixteen) = Reply v
    /\ List.length v = 16%nat
    /\ flatten_tolist (rows_of 4 4 sixteen) = v
    /\ List.length (rows_of 4 4 sixteen) = 4%nat
    /\ (forall row, In row (rows_of 4 4 sixteen) -> List.length row = 4%nat).
Proof.
  apply (@get_ee_transform_returns_the_payload
           (example_world true [] [] sixteen) (rows_of 4 4 sixteen)).
  reflexivity.
Defined.

(** X2: when the service answers with a number of values other than
    sixteen, [get_ee_transform] has made its one call and ends with the
    [ValueError] of [reshape]; no matrix is returned, however close the
    size. *)
Theorem get_ee_transform_wrong_size (w : World) (v : list float) :
  ee_reply w = Reply v ->
  List.length v <> 16%nat ->
  exists msg : string,
    get_ee_transform w = (Raised (ValueError msg), emit EvCallGetEe w).
Proof.
  intros Hreply Hlen. rewrite get_ee_transform_run, Hreply.
  destruct (Nat.eqb_spec (List.length v) 16) as [Heq|_];
    [contradiction|eexists; reflexivity].
Qed.

Lemma get_ee_transform_wrong_size_witness :
  exists msg : string,
    get_ee_transform (example_world true [] [] [1; 2; 3]%float)
    = (Raised (ValueError msg),
       emit EvCallGetEe (example_world true [] [] [1; 2; 3]%float)).
Proof.
  apply (@get_ee_transform_wrong_size
           (example_world true [] [] [1; 2; 3]%float) [1; 2; 3]%float).
  - reflexivity.
  - simpl. lia.
Defined.

(** ** What _fill_in_config does with each argument *)

(** The config given to [_fill_in_config] and the world do not matter. *)
Lemma fill_in_config_any
    (config config' : Config) (T : list (list float))
    (s d : option (list pynum)) (fb tb : pynum) (w w' : World) :
  _fill_in_config config T s d fb tb w
  = (fst (_fill_in_config config' T s d fb tb w'), w).
Proof.
  destruct s as [l|].
  - destruct (Nat.eq_dec (List.length l) 6) as [Hl|Hl].
    + now rewrite !(@fill_in_config_accepts _ T fb tb _ l d Hl).
    + now rewrite !(@fill_in_config_bad_stiffness _ T fb tb _ l d Hl).
  - destruct d as [l|]; reflexivity.
Qed.

Lemma fill_in_config_fields
    (config : Config) (T : list (list float))
    (s d : option (list pynum)) (fb tb : pynum) (w : World) (cfg : Config) :
  fst (_fill_in_config config T s d fb tb w) = Returned cfg ->
  o_T_ee_desired cfg = flatten_tolist T
  /\ ee_control_force_bound cfg = fb
  /\ ee_control_torque_bound cfg = tb.
Proof.
  destruct s as [l|].
  - destruct (Nat.eq_dec (List.length l) 6) as [Hl|Hl].
    + rewrite (@fill_in_config_accepts config T fb tb w l d Hl).
      intros H; injection H as <-. now repeat split.
    + rewrite (@fill_in_config_bad_stiffness config T fb tb w l d Hl).
      discriminate.
  - destruct d as [l|]; [discriminate|].
    intros H; injection H as <-. now repeat split.
Qed.

(** X3: an exception out of [_fill_in_config] is either the assertion on
    the stiffness length, raised exactly for a supplied stiffness whose
    length is not 6, or the [TypeError] of [len(None)], raised exactly for
    a damping supplied without stiffness.  The assertion that carries the
    message "Damping dimension does not match" never fails. *)
Theorem fill_in_config_exceptions
    (config : Config) (T : list (list float))
    (s d : option (list pynum)) (fb tb : pynum) (w : World) (e : exn) :
  fst (_fill_in_config config T s d fb tb w) = Raised e ->
  e <> AssertionError "Damping dimension does not match"
  /\ ((e = AssertionError "Stiffness dimension does not match"
       /\ exists l, s = Some l /\ List.length l <> 6%nat)
      \/ (e = TypeError "object of type 'NoneType' has no len()"
          /\ s = None /\ exists l, d = Some l)).
Proof.
  destruct s as [l|].
  - destruct (Nat.eq_dec (List.length l) 6) as [Hl|Hl].
    + rewrite (@fill_in_config_accepts config T fb tb w l d Hl). discriminate.
    + rewrite (@fill_in_config_bad_stiffness config T fb tb w l d Hl).
      intros H; injection H as <-. split; [discriminate|].
      left. split; [reflexivity|]. now exists l.
  - destruct d as [l|]; [|discriminate].
    rewrite fill_in_config_len_of_None.
    intros H; injection H as <-. split; [discriminate|].
    right. split; [reflexivity|]. split; [reflexivity|]. now exists l.
Qed.

Lemma fill_in_config_exceptions_witness :
  TypeError "object of type 'NoneType' has no len()"
  <> AssertionError "Damping dimension does not match"
  /\ ((TypeError "object of type 'NoneType' has no len()"
       = AssertionError "Stiffness dimension does not match"
       /\ exists l, @None (list pynum) = Some l /\ List.length l <> 6%nat)
      \/ (TypeError "object of type 'NoneType' has no len()"
          = TypeError "object of type 'NoneType' has no len()"
          /\ @None (list pynum) = None /\ exists l, Some three_gains = Some l)).
Proof.
  apply (@fill_in_config_exceptions Config_new identity_transform
           None (Some three_gains) default_force_bound default_torque_bound
           (example_world true [] [] sixteen)
           (TypeError "object of type 'NoneType' has no len()")).
  reflexivity.
Defined.

Lemma reaches_config_after_get (c : entry_point) (w : World) :
  reaches_config c (emit EvCallGetEe w) = reaches_config c w.
Proof. destruct c; reflexivity. Qed.

(** X4: a pose read with [get_ee_transform] and handed on to [set_ee] or
    [regulate_ee] goes out as the target exactly as it came in: the config
    sent carries, as [o_T_ee_desired], the sixteen values of the service
    response, in the same order. *)
Theorem pose_sent_back_unchanged
    (c : entry_point) (s d : option (list pynum)) (fb tb : pynum)
    (w : World) (v : list float) (cfg : Config) :
  ee_reply w = Reply v ->
  List.length v = 16%nat ->
  reaches_config c w = true ->
  fst (_fill_in_config Config_new (rows_of 4 4 v) s d fb tb w) = Returned cfg ->
  payloads (trace (snd (bind get_ee_transform
                             (fun T => invoke c T s d fb tb) w)))
  = payloads (trace w) ++ [cfg]
  /\ o_T_ee_desired cfg = v.
Proof.
  intros Hreply Hlen Hup Hfill. split.
  - unfold bind. rewrite get_ee_transform_run, Hreply, Hlen. cbn [Nat.eqb].
    rewrite (@invoke_fill_returned c (rows_of 4 4 v) s d fb tb
               (emit EvCallGetEe w) cfg).
    + cbn [emit trace]. now rewrite payloads_silent.
    + now rewrite reaches_config_after_get.
    + intros config w0.
      now rewrite (fill_in_config_any config Config_new _ s d fb tb w0 w), Hfill.
  - destruct (fill_in_config_fields _ _ _ _ _ _ _ Hfill) as [Hpose _].
    rewrite Hpose. now apply flatten_rows_of.
Qed.

Lemma pose_sent_back_unchanged_witness :
  payloads (trace (snd (bind get_ee_transform
                             (fun T => invoke (RegulateEe 4) T None None
                                              (PyInt 5) default_torque_bound)
                             (example_world true [ACTIVE] [0]%float sixteen))))
  = payloads (trace (example_world true [ACTIVE] [0]%float sixteen))
    ++ [mkConfig sixteen nd_object_None nd_object_None
                 (PyInt 5) default_torque_bound]
  /\ o_T_ee_desired (mkConfig sixteen nd_object_None nd_object_None
                              (PyInt 5) default_torque_bound)
     = sixteen.
Proof.
  apply (@pose_sent_back_unchanged (RegulateEe 4) None None
           (PyInt 5) default_torque_bound
           (example_world true [ACTIVE] [0]%float sixteen) sixteen
           (mkConfig sixteen nd_object_None nd_object_None
                     (PyInt 5) default_torque_bound));
    reflexivity.
Defined.

(** X5: [set_ee] and [regulate_ee] send at most one config per call, and a
    config they send carries the flattened target transform and the force
    and torque bounds exactly as the caller passed them; unlike the gains,
    the bounds are never replaced. *)
Theorem sent_config_keeps_target_and_bounds
    (c : entry_point) (T : list (list float)) (s d : option (list pynum))
    (fb tb : pynum) (w : World) :
  exists sent : list Config,
    payloads (trace (snd (invoke c T s d fb tb w))) = payloads (trace w) ++ sent
    /\ (List.length sent <= 1)%nat
    /\ (forall cfg, In cfg sent ->
          o_T_ee_desired cfg = flatten_tolist T
          /\ ee_control_force_bound cfg = fb
          /\ ee_control_torque_bound cfg = tb).
Proof.
  destruct (reaches_config c w) eqn:Hup.
  - destruct (fill_in_config_outcome Config_new T s d fb tb) as [[cfg H]|[e H]].
    + exists [cfg]. split; [|split].
      * apply invoke_fill_returned; [exact Hup|].
        intros config w0.
        now rewrite (fill_in_config_any config Config_new T s d fb tb w0 w), H.
      * simpl. lia.
      * intros cfg' [<-|[]].
        apply (@fill_in_config_fields Config_new T s d fb tb w).
        now rewrite H.
    + exists []. split; [|split].
      * rewrite (@invoke_fill_raised c T s d fb tb w e Hup).
        -- cbn [snd]. now rewrite world_at_config_payloads, app_nil_r.
        -- intros config w0.
           now rewrite (fill_in_config_any config Config_new T s d fb tb w0 w), H.
      * simpl. lia.
      * intros cfg [].
  - exists []. split; [|split].
    + rewrite invoke_unreachable by exact Hup. cbn [snd emit trace].
      now rewrite payloads_silent, app_nil_r.
    + simpl. lia.
    + intros cfg [].
Qed.

(** Once the config is built, the only exceptions left are those of the
    transport and the two time-outs. *)
Lemma invoke_after_fill
    (c : entry_point) (T : list (list float)) (s d : option (list pynum))
    (fb tb : pynum) (w : World) (cfg : Config) (e : exn) :
  reaches_config c w = true ->
  fst (_fill_in_config Config_new T s d fb tb w) = Returned cfg ->
  fst (invoke c T s d fb tb w) = Raised e ->
  exists msg, e = ServiceException msg \/ e = RuntimeError msg.
Proof.
  intros Hup Hfill. destruct c as [|fuel]; simpl in *.
  - unfold set_ee, bind.
    rewrite (fill_in_config_any _ Config_new T s d fb tb w w), Hfill.
    unfold call_config. destruct (config_reply w cfg) as [u|msg]; cbn [fst].
    + discriminate.
    + intros H; injection H as <-. exists msg. now left.
  - rewrite (@regulate_ee_submitted fuel T s d fb tb w cfg Hup Hfill).
    destruct (wait_while_pending fuel (goal_states w O) (clock w O)
                                 (world_at_pending_loop cfg w))
      as [[state| |] w'] eqn:Hrun.
    + destruct (state =? ABORTED); cbn [fst]; [|discriminate].
      intros H; injection H as <-. eexists. now right.
    + destruct (wait_while_pending_raises _ _ _ _ Hrun) as [-> _].
      cbn [fst]. intros H; injection H as <-. eexists. now right.
    + discriminate.
Qed.

(** X6: the length of a supplied damping is not looked at.  When the
    stiffness has length 6, a damping sequence of any length, the empty one
    included, passes: no assertion fails and the config goes out with the
    fixed damping [30,30,30,8,8,8]. *)
Theorem damping_length_not_checked
    (c : entry_point) (T : list (list float)) (s d : list pynum)
    (fb tb : pynum) (w : World) :
  List.length s = 6%nat ->
  reaches_config c w = true ->
  payloads (trace (snd (invoke c T (Some s) (Some d) fb tb w)))
  = payloads (trace w)
    ++ [mkConfig (flatten_tolist T)
                 (nd_int_1d [150; 150; 150; 10; 10; 10])
                 (nd_int_1d [30; 30; 30; 8; 8; 8]) fb tb]
  /\ (forall msg,
        fst (invoke c T (Some s) (Some d) fb tb w) <> Raised (AssertionError msg)).
Proof.
  intros Hs Hup. split; [now apply fixed_gains_sent|].
  intros msg Hraised.
  destruct (@invoke_after_fill c T (Some s) (Some d) fb tb w
              (mkConfig (flatten_tolist T)
                        (nd_int_1d [150; 150; 150; 10; 10; 10])
                        (nd_int_1d [30; 30; 30; 8; 8; 8]) fb tb)
              (AssertionError msg) Hup)
    as [msg' [H|H]]; try discriminate H; [|exact Hraised].
  now rewrite (@fill_in_config_accepts Config_new T fb tb w s (Some d) Hs).
Qed.

Lemma damping_length_not_checked_witness :
  payloads (trace (snd (invoke SetEe identity_transform
                               (Some six_gains) (Some [])
                               default_force_bound default_torque_bound
                               (example_world true [] [] sixteen))))
  = payloads (trace (example_world true [] [] sixteen))
    ++ [mkConfig (flatten_tolist identity_transform)
                 (nd_int_1d [150; 150; 150; 10; 10; 10])
                 (nd_int_1d [30; 30; 30; 8; 8; 8])
                 default_force_bound default_torque_bound]
  /\ (forall msg,
        fst (invoke SetEe identity_transform (Some six_gains) (Some [])
                    default_force_bound default_torque_bound
                    (example_world true [] [] sixteen))
        <> Raised (AssertionError msg)).
Proof.
  apply (@damping_length_not_checked SetEe identity_transform six_gains []
           default_force_bound default_torque_bound
           (example_world true [] [] sixteen));
    reflexivity.
Defined.

(** X7: [set_ee] talks to the configuration service only, and at most once.
    Either [_fill_in_config] raises and the world is left as it was, or one
    request is made and the call ends as the reply does: normally on a
    response, with the transport's exception on a fault, without a second
    attempt. *)
Theorem set_ee_single_request
    (T : list (list float)) (s d : option (list pynum))
    (fb tb : pynum) (w : World) :
  (exists e,
      fst (_fill_in_config Config_new T s d fb tb w) = Raised e
      /\ set_ee T s d fb tb w = (Raised e, w))
  \/ (exists cfg,
         fst (_fill_in_config Config_new T s d fb tb w) = Returned cfg
         /\ set_ee T s d fb tb w
            = (match config_reply w cfg with
               | Reply _ => Returned tt
               | Fault msg => Raised (ServiceException msg)
               end,
               emit (EvCallConfig cfg) w)).
Proof.
  destruct (fill_in_config_outcome Config_new T s d fb tb) as [[cfg H]|[e H]].
  - right. exists cfg. split; [now rewrite H|].
    unfold set_ee, bind.
    rewrite (fill_in_config_any _ Config_new T s d fb tb w w), H. cbn [fst].
    unfold call_config. destruct (config_reply w cfg); reflexivity.
  - left. exists e. split; [now rewrite H|].
    unfold set_ee, bind.
    now rewrite (fill_in_config_any _ Config_new T s d fb tb w w), H.
Qed.

(** ** regulate_ee, read backwards *)

(** A normal exit of the loop, taken apart: the status returned is the
    first one that is not PENDING, no deadline check fired on the way, and
    the feeds have moved on by the number of passes made. *)
Lemma wait_while_pending_returned (fuel : nat) :
  forall (state : Z) (t0 : float) (w : World) (state' : Z) (w' : World),
    wait_while_pending fuel state t0 w = (Returned state', w') ->
    exists n : nat,
      (n < fuel)%nat
      /\ observed state w n = state'
      /\ state' <> PENDING
      /\ (forall k, (k < n)%nat -> observed state w k = PENDING)
      /\ (forall k, (k < n)%nat -> elapsed_gt (clock w k) t0 10%float = false)
      /\ trace w' = trace w ++ passes pending_pass n
      /\ (forall k, goal_states w' k = goal_states w (n + k)%nat)
      /\ (forall k, clock w' k = clock w (n + k)%nat).
Proof.
  induction fuel as [|fuel IH]; intros state t0 w state' w' Hrun;
    [discriminate|].
  rewrite wait_while_pending_unfold in Hrun.
  destruct (Z.eqb_spec state PENDING) as [Hst|Hst].
  - destruct (elapsed_gt (clock w O) t0 10%float) eqn:Hclock; [discriminate|].
    destruct (IH _ _ _ _ _ Hrun)
      as [n [Hn [Hobs [Hleft [Hpend [Hquiet [Htrace [Hstates Hticks]]]]]]]].
    exists (S n). split; [lia|]. split; [|split; [exact Hleft|]].
    { now rewrite <- (observed_after_pass state). }
    split; [|split; [|split; [|split]]].
    + intros [|k] Hk; [exact Hst|].
      rewrite <- (observed_after_pass state). apply Hpend; lia.
    + intros [|k] Hk; [exact Hclock|]. apply (Hquiet k); lia.
    + rewrite Htrace, after_pending_pass_trace. apply passes_trace_step.
    + intros k. now rewrite Hstates.
    + intros k. now rewrite Hticks.
  - injection Hrun as <- <-. exists O.
    split; [lia|]. split; [reflexivity|]. split; [exact Hst|].
    split; [intros k Hk; lia|]. split; [intros k Hk; lia|].
    split; [simpl; now rewrite app_nil_r|]. split; reflexivity.
Qed.

(** The loop cancels once when it raises, and not at all otherwise. *)
Lemma wait_while_pending_cancels (fuel : nat) :
  forall (state : Z) (t0 : float) (w : World),
    cancels (trace (snd (wait_while_pending fuel state t0 w)))
    = (cancels (trace w)
       + match fst (wait_while_pending fuel state t0 w) with
         | Raised _ => 1
         | _ => 0
         end)%nat.
Proof.
  induction fuel as [|fuel IH]; intros state t0 w; [simpl; lia|].
  rewrite wait_while_pending_unfold.
  destruct (state =? PENDING); [|simpl; lia].
  destruct (elapsed_gt (clock w O) t0 10%float).
  - cbn [fst snd emit trace].
    rewrite cancels_app, after_pending_pass_trace, cancels_app. simpl. lia.
  - rewrite IH, after_pending_pass_trace, cancels_app. simpl. lia.
Qed.

(** The two exceptions of [_fill_in_config], with their messages. *)
Lemma fill_in_config_raised
    (config : Config) (T : list (list float))
    (s d : option (list pynum)) (fb tb : pynum) (w : World) (e : exn) :
  fst (_fill_in_config config T s d fb tb w) = Raised e ->
  e = AssertionError "Stiffness dimension does not match"
  \/ e = TypeError "object of type 'NoneType' has no len()".
Proof.
  destruct s as [l|].
  - destruct (Nat.eq_dec (List.length l) 6) as [Hl|Hl].
    + rewrite (@fill_in_config_accepts config T fb tb w l d Hl). discriminate.
    + rewrite (@fill_in_config_bad_stiffness config T fb tb w l d Hl).
      intros H; injection H as <-. now left.
  - destruct d as [l|]; [|discriminate].
    intros H; injection H as <-. now right.
Qed.




(** [regulate_ee] from the moment the goal is out, as far as cancels go. *)
Lemma world_at_pending_loop_cancels (cfg : Config) (w : World) :
  cancels (trace (world_at_pending_loop cfg w)) = cancels (trace w).
Proof. rewrite world_at_pending_loop_trace, cancels_app. simpl. lia. Qed.

(** X9: [regulate_ee] cancels the goal exactly when it ends with
    "Timeout!", and then once.  A call that returns, that finds the server
    unreachable, that fails in [_fill_in_config] or that reports an aborted
    goal issues no cancel. *)
Theorem regulate_ee_cancels_iff_timeout
    (fuel : nat) (T : list (list float)) (s d : option (list pynum))
    (fb tb : pynum) (w : World) :
  (fst (regulate_ee fuel T s d fb tb w) = Raised (RuntimeError "Timeout!") ->
   cancels (trace (snd (regulate_ee fuel T s d fb tb w)))
   = S (cancels (trace w)))
  /\ (fst (regulate_ee fuel T s d fb tb w) <> Raised (RuntimeError "Timeout!") ->
      cancels (trace (snd (regulate_ee fuel T s d fb tb w)))
      = cancels (trace w)).
Proof.
  destruct (server_reachable w) eqn:Hup.
  2:{ change (regulate_ee fuel) with (invoke (RegulateEe fuel)).
      rewrite (@invoke_unreachable (RegulateEe fuel) T s d fb tb w Hup).
      cbn [fst snd emit trace]. rewrite cancels_app. simpl.
      split; [discriminate|intros _; lia]. }
  destruct (fill_in_config_outcome Config_new T s d fb tb) as [[cfg H]|[e H]].
  2:{ assert (fst (_fill_in_config Config_new T s d fb tb w) = Raised e)
        as Hfill by now rewrite H.
      rewrite (@regulate_ee_fill_raised fuel T s d fb tb w e Hup Hfill).
      cbn [fst snd emit trace]. rewrite cancels_app. simpl.
      split; [|intros _; lia].
      intros Habs. injection Habs as ->.
      destruct (fill_in_config_raised _ _ _ _ _ _ _ Hfill); discriminate. }
  assert (fst (_fill_in_config Config_new T s d fb tb w) = Returned cfg)
    as Hfill by now rewrite H.
  rewrite (@regulate_ee_submitted fuel T s d fb tb w cfg Hup Hfill).
  pose proof (wait_while_pending_cancels fuel (goal_states w O) (clock w O)
                (world_at_pending_loop cfg w)) as Hcount.
  rewrite world_at_pending_loop_cancels in Hcount.
  destruct (wait_while_pending fuel (goal_states w O) (clock w O)
                               (world_at_pending_loop cfg w))
    as [[state| |] w'] eqn:Hrun; cbn [fst snd] in Hcount.
  - destruct (state =? ABORTED); cbn [fst snd emit trace];
      rewrite ?cancels_app, Hcount; simpl;
      (split; [discriminate|intros _; lia]).
  - destruct (wait_while_pending_raises _ _ _ _ Hrun) as [-> _].
    cbn [fst snd]. rewrite Hcount.
    split; [intros _; lia|intros Habs; now elim Habs].
  - cbn [fst snd]. rewrite Hcount. split; [discriminate|intros _; lia].
Qed.

Lemma regulate_ee_cancels_iff_timeout_witness :
  cancels (trace (snd (regulate_ee 4 identity_transform None None
                                   default_force_bound default_torque_bound
                                   (example_world true [PENDING; PENDING]
                                                  [0; 11]%float sixteen))))
  = S (cancels (trace (example_world true [PENDING; PENDING]
                                     [0; 11]%float sixteen)))
  /\ cancels (trace (snd (regulate_ee 4 identity_transform None None
                                      default_force_bound default_torque_bound
                                      (example_world true [ABORTED]
                                                     [0]%float sixteen))))
     = cancels (trace (example_world true [ABORTED] [0]%float sixteen)).
Proof.
  split.
  - apply (proj1 (regulate_ee_cancels_iff_timeout 4 identity_transform
                    None None default_force_bound default_torque_bound
                    (example_world true [PENDING; PENDING]
                                   [0; 11]%float sixteen))).
    reflexivity.
  - apply (proj2 (regulate_ee_cancels_iff_timeout 4 identity_transform
                    None None default_force_bound default_torque_bound
                    (example_world true [ABORTED] [0]%float sixteen))).
    discriminate.
Defined.



(** ** The waits are bounded *)

Lemma wait_while_pending_bounded (n : nat) :
  forall (fuel : nat) (state : Z) (t0 : float) (w : World),
    (n < fuel)%nat ->
    elapsed_gt (clock w n) t0 10%float = true ->
    fst (wait_while_pending fuel state t0 w) <> OutOfFuel.
Proof.
  induction n as [|n IH]; intros fuel state t0 w Hfuel Hfire;
    (destruct fuel as [|fuel]; [lia|]); rewrite wait_while_pending_unfold;
    (destruct (state =? PENDING); [|discriminate]).
  - rewrite Hfire. discriminate.
  - destruct (elapsed_gt (clock w O) t0 10%float); [discriminate|].
    apply IH; [lia|exact Hfire].
Qed.

(** X11: [regulate_ee] does not poll for ever.  If some clock reading, the
    one of pass [n + 1], is more than 10 seconds past [t0], the method has
    ended by that pass: with fuel for [n + 1] passes it returns or raises,
    and it never runs out. *)
Theorem regulate_ee_bounded_wait
    (fuel : nat) (T : list (list float)) (s d : option (list pynum))
    (fb tb : pynum) (w : World) (n : nat) :
  elapsed_gt (clock w (S n)) (clock w O) 10%float = true ->
  (n < fuel)%nat ->
  fst (regulate_ee fuel T s d fb tb w) = Returned tt
  \/ exists e, fst (regulate_ee fuel T s d fb tb w) = Raised e.
Proof.
  intros Hfire Hfuel.
  destruct (server_reachable w) eqn:Hup.
  2:{ right. eexists.
      change (regulate_ee fuel) with (invoke (RegulateEe fuel)).
      now rewrite (@invoke_unreachable (RegulateEe fuel) T s d fb tb w Hup). }
  destruct (fill_in_config_outcome Config_new T s d fb tb) as [[cfg H]|[e H]].
  2:{ right. exists e.
      rewrite (@regulate_ee_fill_raised fuel T s d fb tb w e Hup);
        [reflexivity|now rewrite H]. }
  assert (fst (_fill_in_config Config_new T s d fb tb w) = Returned cfg)
    as Hfill by now rewrite H.
  rewrite (@regulate_ee_submitted fuel T s d fb tb w cfg Hup Hfill).
  pose proof (@wait_while_pending_bounded n fuel (goal_states w O) (clock w O)
                (world_at_pending_loop cfg w) Hfuel Hfire) as Hends.
  destruct (wait_while_pending fuel (goal_states w O) (clock w O)
                               (world_at_pending_loop cfg w))
    as [[state| |] w'].
  - destruct (state =? ABORTED); [right; eexists; reflexivity|now left].
  - right. now exists e.
  - now elim Hends.
Qed.

Lemma regulate_ee_bounded_wait_witness :
  fst (regulate_ee 2 identity_transform None None
                   default_force_bound default_torque_bound
                   (example_world true [PENDING; PENDING; PENDING]
                                  [0; 4; 11]%float sixteen))
  = Returned tt
  \/ exists e,
       fst (regulate_ee 2 identity_transform None None
                        default_force_bound default_torque_bound
                        (example_world true [PENDING; PENDING; PENDING]
                                       [0; 4; 11]%float sixteen))
       = Raised e.
Proof.
  apply (@regulate_ee_bounded_wait 2 identity_transform None None
           default_force_bound default_torque_bound
           (example_world true [PENDING; PENDING; PENDING]
                          [0; 4; 11]%float sixteen) 1).
  - reflexivity.
  - lia.
Defined.

Lemma wait_until_idle_bounded (n : nat) :
  forall (fuel : nat) (t0 : float) (w : World),
    (n < fuel)%nat ->
    elapsed_gt (clock w n) t0 3%float = true ->
    fst (wait_until_idle fuel t0 w) <> OutOfFuel.
Proof.
  induction n as [|n IH]; intros fuel t0 w Hfuel Hfire;
    (destruct fuel as [|fuel]; [lia|]); rewrite wait_until_idle_unfold;
    (destruct (idle_status (goal_states w O)); [discriminate|]).
  - rewrite Hfire. discriminate.
  - destruct (elapsed_gt (clock w O) t0 3%float); [discriminate|].
    apply IH; [lia|exact Hfire].
Qed.

(** The loop of [stop] sends nothing and raises "Stop timeout!" only. *)
Lemma wait_until_idle_quiet (fuel : nat) :
  forall (t0 : float) (w : World),
    payloads (trace (snd (wait_until_idle fuel t0 w))) = payloads (trace w)
    /\ (forall e, fst (wait_until_idle fuel t0 w) = Raised e ->
                  e = RuntimeError "Stop timeout!").
Proof.
  induction fuel as [|fuel IH]; intros t0 w;
    [split; [reflexivity|discriminate]|].
  rewrite wait_until_idle_unfold.
  destruct (idle_status (goal_states w O)).
  - cbn [fst snd next_state emit trace].
    split; [now rewrite payloads_silent|discriminate].
  - destruct (elapsed_gt (clock w O) t0 3%float).
    + cbn [fst snd]. rewrite after_busy_pass_trace, payloads_app. simpl.
      split; [apply app_nil_r|]. intros e H; now injection H as <-.
    + destruct (IH t0 (after_busy_pass w)) as [Hsent Hexn].
      rewrite Hsent, after_busy_pass_trace, payloads_app. simpl.
      split; [apply app_nil_r|exact Hexn].
Qed.

(** X12: [stop] does not poll for ever either.  If the clock reading of pass
    [n + 1] is more than 3 seconds past [t0], then with fuel for [n + 1]
    passes [stop] has ended: it returns, or it raises "Stop timeout!" and
    nothing else.  In doing so it sends no request and no goal. *)
Theorem stop_bounded_and_quiet (fuel : nat) (w : World) (n : nat) :
  elapsed_gt (clock w (S n)) (clock w O) 3%float = true ->
  (n < fuel)%nat ->
  (fst (stop fuel w) = Returned tt
   \/ fst (stop fuel w) = Raised (RuntimeError "Stop timeout!"))
  /\ payloads (trace (snd (stop fuel w))) = payloads (trace w).
Proof.
  intros Hfire Hfuel. rewrite stop_unfold.
  destruct (idle_status (goal_states w O)).
  - cbn [fst snd next_state emit trace].
    split; [now left|now rewrite !payloads_silent].
  - destruct (wait_until_idle_quiet fuel (clock w O) (world_at_busy_loop w))
      as [Hsent Hexn].
    pose proof (@wait_until_idle_bounded n fuel (clock w O)
                  (world_at_busy_loop w) Hfuel Hfire) as Hends.
    split.
    + destruct (fst (wait_until_idle fuel (clock w O) (world_at_busy_loop w)))
        as [[]|e|].
      * now left.
      * right. now rewrite (Hexn e).
      * now elim Hends.
    + rewrite Hsent, world_at_busy_loop_trace, payloads_app. simpl.
      apply app_nil_r.
Qed.

Lemma stop_bounded_and_quiet_witness :
  (fst (stop 2 (example_world true [ACTIVE; ACTIVE; ACTIVE]
                              [0; 1; 4]%float sixteen))
   = Returned tt
   \/ fst (stop 2 (example_world true [ACTIVE; ACTIVE; ACTIVE]
                                 [0; 1; 4]%float sixteen))
      = Raised (RuntimeError "Stop timeout!"))
  /\ payloads (trace (snd (stop 2 (example_world true [ACTIVE; ACTIVE; ACTIVE]
                                                 [0; 1; 4]%float sixteen))))
     = payloads (trace (example_world true [ACTIVE; ACTIVE; ACTIVE]
                                      [0; 1; 4]%float sixteen)).
Proof.
  apply (@stop_bounded_and_quiet 2
           (example_world true [ACTIVE; ACTIVE; ACTIVE] [0; 1; 4]%float sixteen)
           1).
  - reflexivity.
  - lia.
Defined.

(** ** stop, read backwards, and after regulate_ee *)

Lemma wait_until_idle_returned (fuel : nat) :
  forall (t0 : float) (w w' : World),
    wait_until_idle fuel t0 w = (Returned tt, w') ->
    exists m : nat,
      (m < fuel)%nat
      /\ idle_status (goal_states w m) = true
      /\ (forall k, (k < m)%nat -> idle_status (goal_states w k) = false)
      /\ (forall k, (k < m)%nat -> elapsed_gt (clock w k) t0 3%float = false)
      /\ trace w' = trace w ++ passes busy_pass m ++ [EvGetState].
Proof.
  induction fuel as [|fuel IH]; intros t0 w w' Hrun; [discriminate|].
  rewrite wait_until_idle_unfold in Hrun.
  destruct (idle_status (goal_states w O)) eqn:Hidle.
  - injection Hrun as <-. exists O.
    split; [lia|]. split; [exact Hidle|].
    split; [intros k Hk; lia|]. split; [intros k Hk; lia|reflexivity].
  - destruct (elapsed_gt (clock w O) t0 3%float) eqn:Hclock; [discriminate|].
    destruct (IH _ _ _ Hrun) as [m [Hm [Hlast [Hbusy [Hquiet Htrace]]]]].
    exists (S m). split; [lia|]. split; [exact Hlast|].
    split; [|split].
    + intros [|k] Hk; [exact Hidle|]. apply (Hbusy k); lia.
    + intros [|k] Hk; [exact Hclock|]. apply (Hquiet k); lia.
    + rewrite Htrace, after_busy_pass_trace.
      rewrite app_assoc, passes_trace_step. now rewrite <- app_assoc.
Qed.

(** X13: whenever [stop] returns, the last status it read is one of
    SUCCEEDED, PREEMPTED, ABORTED and LOST, every status it read before was
    not, and no deadline check had fired; and it has cancelled once if the
    first status read was not terminal, not at all if it was. *)
Theorem stop_returned (fuel : nat) (w : World) :
  fst (stop fuel w) = Returned tt ->
  exists n : nat,
    In (goal_states w n) terminal_statuses
    /\ (forall k, (k < n)%nat -> ~ In (goal_states w k) terminal_statuses)
    /\ (forall k, (1 <= k < n)%nat ->
                  elapsed_gt (clock w k) (clock w O) 3%float = false)
    /\ cancels (trace (snd (stop fuel w)))
       = (cancels (trace w) + (if Nat.eqb n 0 then 0 else 1))%nat.
Proof.
  assert (forall z, idle_status z = false -> ~ In z terminal_statuses)
    as Hbusy_not.
  { intros z Hz Hin. apply terminal_statuses_spec in Hin.
    unfold idle_status in Hz. congruence. }
  rewrite stop_unfold.
  destruct (idle_status (goal_states w O)) eqn:Hfirst.
  - intros _. exists O.
    split; [now apply terminal_statuses_spec|].
    split; [intros k Hk; lia|]. split; [intros k Hk; lia|].
    cbn [snd next_state emit trace]. rewrite !cancels_app. simpl. lia.
  - destruct (wait_until_idle fuel (clock w O) (world_at_busy_loop w))
      as [[[]|e|] w'] eqn:Hrun; try discriminate.
    intros _.
    destruct (wait_until_idle_returned _ _ _ Hrun)
      as [m [_ [Hlast [Hbusy [Hquiet Htrace]]]]].
    exists (S m).
    split; [now apply terminal_statuses_spec|]. split; [|split].
    + intros [|k] Hk; apply Hbusy_not; [exact Hfirst|]. apply (Hbusy k); lia.
    + intros [|k] Hk; [lia|]. apply (Hquiet k); lia.
    + cbn [snd Nat.eqb]. rewrite Htrace, world_at_busy_loop_trace.
      rewrite !cancels_app, passes_no_cancel. simpl. lia.
Qed.

Lemma stop_returned_witness :
  exists n : nat,
    In (goal_states (example_world true [ACTIVE; ACTIVE; PREEMPTED]
                                   [0; 1; 2]%float sixteen) n)
       terminal_statuses
    /\ (forall k, (k < n)%nat ->
          ~ In (goal_states (example_world true [ACTIVE; ACTIVE; PREEMPTED]
                                           [0; 1; 2]%float sixteen) k)
               terminal_statuses)
    /\ (forall k, (1 <= k < n)%nat ->
          elapsed_gt
            (clock (example_world true [ACTIVE; ACTIVE; PREEMPTED]
                                  [0; 1; 2]%float sixteen) k)
            (clock (example_world true [ACTIVE; ACTIVE; PREEMPTED]
                                  [0; 1; 2]%float sixteen) O)
            3%float
          = false)
    /\ cancels (trace (snd (stop 5 (example_world true
                                      [ACTIVE; ACTIVE; PREEMPTED]
                                      [0; 1; 2]%float sixteen))))
       = (cancels (trace (example_world true [ACTIVE; ACTIVE; PREEMPTED]
                                        [0; 1; 2]%float sixteen))
          + (if Nat.eqb n 0 then 0 else 1))%nat.
Proof.
  apply (@stop_returned 5
           (example_world true [ACTIVE; ACTIVE; PREEMPTED] [0; 1; 2]%float
                          sixteen)).
  reflexivity.
Defined.

Lemma passes_pending_no_cancel (n : nat) : cancels (passes pending_pass n) = O.
Proof. induction n as [|n IH]; [reflexivity|exact IH]. Qed.

(** The world [regulate_ee] leaves behind when it returns. *)
Lemma regulate_ee_returned_world
    (fuel : nat) (T : list (list float)) (s d : option (list pynum))
    (fb tb : pynum) (w w1 : World) :
  regulate_ee fuel T s d fb tb w = (Returned tt, w1) ->
  exists n : nat,
    (forall k, (k < n)%nat -> goal_states w k = PENDING)
    /\ goal_states w n <> PENDING
    /\ goal_states w1 O = goal_states w (S n)
    /\ cancels (trace w1) = cancels (trace w).
Proof.
  intros Hret.
  destruct (server_reachable w) eqn:Hup.
  2:{ change (regulate_ee fuel) with (invoke (RegulateEe fuel)) in Hret.
      rewrite (@invoke_unreachable (RegulateEe fuel) T s d fb tb w Hup) in Hret.
      discriminate. }
  destruct (fill_in_config_outcome Config_new T s d fb tb) as [[cfg H]|[e H]].
  2:{ rewrite (@regulate_ee_fill_raised fuel T s d fb tb w e Hup) in Hret
        by now rewrite H.
      discriminate. }
  assert (fst (_fill_in_config Config_new T s d fb tb w) = Returned cfg)
    as Hfill by now rewrite H.
  rewrite (@regulate_ee_submitted fuel T s d fb tb w cfg Hup Hfill) in Hret.
  destruct (wait_while_pending fuel (goal_states w O) (clock w O)
                               (world_at_pending_loop cfg w))
    as [[state| |] w'] eqn:Hrun; try discriminate.
  destruct (state =? ABORTED); [discriminate|].
  injection Hret as <-.
  destruct (wait_while_pending_returned _ _ _ _ Hrun)
    as [n [_ [Hobs [Hleft [Hpend [_ [Htrace [Hstates _]]]]]]]].
  assert (forall k, observed (goal_states w O) (world_at_pending_loop cfg w) k
                    = goal_states w k) as Hsame
      by (intros [|k]; reflexivity).
  rewrite Hsame in Hobs. subst state.
  exists n. split; [intros k Hk; rewrite <- Hsame; now apply Hpend|].
  split; [exact Hleft|]. split.
  - rewrite Hstates. cbn [world_at_pending_loop next_tick next_state emit
                          goal_states].
    now rewrite Nat.add_0_r.
  - rewrite Htrace, cancels_app, passes_pending_no_cancel.
    rewrite world_at_pending_loop_cancels. lia.
Qed.

(** X14: [stop] called right after a [regulate_ee] that returned decides on
    a fresh read of the status, the one that follows the read on which
    [regulate_ee] left its loop.  Between them the two calls cancel the
    goal once if that fresh status is not terminal, and not at all if it
    is. *)
Theorem regulate_ee_then_stop_cancels
    (fuel fuel' : nat) (T : list (list float)) (s d : option (list pynum))
    (fb tb : pynum) (w : World) :
  fst (regulate_ee fuel T s d fb tb w) = Returned tt ->
  exists n : nat,
    (forall k, (k < n)%nat -> goal_states w k = PENDING)
    /\ goal_states w n <> PENDING
    /\ cancels (trace (snd (bind (regulate_ee fuel T s d fb tb)
                                 (fun _ => stop fuel') w)))
       = (cancels (trace w)
          + (if idle_status (goal_states w (S n)) then 0 else 1))%nat.
Proof.
  intros Hret. unfold bind.
  destruct (regulate_ee fuel T s d fb tb w) as [[[]|e|] w1] eqn:Hreg;
    try discriminate.
  destruct (regulate_ee_returned_world _ _ _ _ _ _ _ Hreg)
    as [n [Hpend [Hleft [Hnext Hcount]]]].
  exists n. split; [exact Hpend|]. split; [exact Hleft|].
  rewrite stop_unfold, Hnext.
  destruct (idle_status (goal_states w (S n))).
  - cbn [snd next_state emit trace]. rewrite !cancels_app, Hcount. simpl. lia.
  - rewrite wait_until_idle_cancels, world_at_busy_loop_trace, cancels_app.
    rewrite Hcount. simpl. lia.
Qed.

Lemma regulate_ee_then_stop_cancels_witness :
  exists n : nat,
    (forall k, (k < n)%nat ->
       goal_states (example_world true [PENDING; ACTIVE; ACTIVE; PREEMPTED]
                                  [0; 1; 2; 3]%float sixteen) k
       = PENDING)
    /\ goal_states (example_world true [PENDING; ACTIVE; ACTIVE; PREEMPTED]
                                  [0; 1; 2; 3]%float sixteen) n
       <> PENDING
    /\ cancels (trace (snd (bind (regulate_ee 4 identity_transform None None
                                              (PyInt 7) default_torque_bound)
                                 (fun _ => stop 4)
                                 (example_world true
                                    [PENDING; ACTIVE; ACTIVE; PREEMPTED]
                                    [0; 1; 2; 3]%float sixteen))))
       = (cancels (trace (example_world true
                            [PENDING; ACTIVE; ACTIVE; PREEMPTED]
                            [0; 1; 2; 3]%float sixteen))
          + (if idle_status
                  (goal_states (example_world true
                                  [PENDING; ACTIVE; ACTIVE; PREEMPTED]
                                  [0; 1; 2; 3]%float sixteen) (S n))
             then 0 else 1))%nat.
Proof.
  apply (@regulate_ee_then_stop_cancels 4 4 identity_transform None None
           (PyInt 7) default_torque_bound
           (example_world true [PENDING; ACTIVE; ACTIVE; PREEMPTED]
                          [0; 1; 2; 3]%float sixteen)).
  reflexivity.
Defined.

(** ** The endpoint names *)

Lemma list_ascii_of_append (a b : string) :
  list_ascii_of_string (String.append a b)
  = list_ascii_of_string a ++ list_ascii_of_string b.
Proof. induction a as [|ch a IH]; simpl; [reflexivity|now rewrite IH]. Qed.

(** Two names are equal: read from the end, they agree. *)
Lemma endpoint_name_eq (p1 p2 s1 s2 : string) :
  String.append "/" (String.append p1 s1)
  = String.append "/" (String.append p2 s2) ->
  rev (list_ascii_of_string s1) ++ rev (list_ascii_of_string p1)
  = rev (list_ascii_of_string s2) ++ rev (list_ascii_of_string p2).
Proof.
  intros H. simpl in H. injection H as H.
  apply (f_equal list_ascii_of_string) in H.
  rewrite !list_ascii_of_append in H.
  apply (f_equal (@rev Ascii.ascii)) in H.
  now rewrite !rev_app_distr in H.
Qed.

Lemma endpoint_prefix_eq (p1 p2 s : string) :
  String.append "/" (String.append p1 s)
  = String.append "/" (String.append p2 s) ->
  p1 = p2.
Proof.
  intros H. apply endpoint_name_eq in H. apply app_inv_head in H.
  apply (f_equal (@rev Ascii.ascii)) in H. rewrite !rev_involutive in H.
  apply (f_equal string_of_list_ascii) in H.
  now rewrite !string_of_list_ascii_of_string in H.
Qed.

(** X15: the names [__init__] builds are never shared.  If the [i]-th name
    of a client built with one prefix equals the [j]-th name of a client
    built with another, then [i = j] and the prefixes are the same: the
    three endpoints of a client have three different names whatever the
    prefix, and clients with different prefixes have no name in common. *)
Theorem endpoint_names_never_shared
    (p1 p2 : string) (i j : nat) (name : string) :
  nth_error (endpoint_names (__init__ p1)) i = Some name ->
  nth_error (endpoint_names (__init__ p2)) j = Some name ->
  i = j /\ p1 = p2.
Proof.
  intros Hi Hj.
  destruct i as [|[|[|i]]]; [| | |destruct i; discriminate Hi];
    (destruct j as [|[|[|j]]]; [| | |destruct j; discriminate Hj]);
    cbn [endpoint_names __init__ nth_error _c_get_T_ee _c_regulate_ee _c_config]
      in Hi, Hj;
    injection Hi as Hi; injection Hj as Hj; rewrite <- Hj in Hi;
    try (split; [reflexivity|exact (endpoint_prefix_eq _ _ _ Hi)]);
    apply endpoint_name_eq in Hi; simpl in Hi; discriminate Hi.
Qed.

Lemma endpoint_names_never_shared_witness :
  1%nat = 1%nat /\ default_prefix = default_prefix.
Proof.
  apply (@endpoint_names_never_shared default_prefix default_prefix 1 1
           "/franka_regulate_ee_transform");
    reflexivity.
Defined.
